(** * Flight Reliability dashboard: table normalisation, filtering and metrics

    A shallow embedding of [app/streamlit/app.py] and, in module [Client], of
    [app/services/flightera_client.py].  A polars [DataFrame] is a
    list of rows; a polars [Series] is a list of nullable cells, and the
    column expressions of the source ([cast], [map_elements], [<=], [==], [&],
    [//], [sum], [mean], [group_by], [sort]) are functions over such columns
    with polars' treatment of null written out.  Float results (rates, means)
    are exact rationals ([Qc]); the two one-decimal rounding functions
    (Python's [round(x, 1)] and polars' [Expr.round(1)]) are parameters.
    Clock values, flight numbers and delays are integer columns, strings are
    sequences of one-byte characters. *)

From Stdlib Require Import QArith Qcanon Qround Ascii.
From stdpp Require Import base decidable option list numbers strings pretty sorting gmap.

Open Scope Z_scope.

(** ** Input table *)

(** One row of the CSV as [pl.read_csv] hands it over; every cell is nullable.
    [Cancelled] is the 0/1 cancellation flag. *)
Record FlightRecord := {
  FlightDate : option string;
  Operating_Airline : option string;
  Flight_Number_Operating_Airline : option Z;
  Origin : option string;
  Dest : option string;
  CRSDepTime : option Z;
  DepTime : option Z;
  CRSArrTime : option Z;
  ArrTime : option Z;
  ArrDelayMinutes : option Z;
  Cancelled : option bool;
}.

(** ** Columns and column expressions *)

Abbreviation Series A := (list (option A)) (only parsing).

(** [df[name]] / [pl.col(name)]. *)
Definition col {R A : Type} (f : R → option A) (df : list R) : Series A := f <$> df.

(** [cast(pl.Int64)] of an integer column. *)
Definition cast_Int64 (s : Series Z) : Series Z := s.

(** [Series.map_elements(f)]: nulls are skipped (left null), [f] is applied to
    the other cells. *)
Definition map_elements {A B : Type} (f : A → B) (s : Series A) : Series B :=
  fmap (M:=option) f <$> s.

(** [expr <= k]: null where the cell is null. *)
Definition le_lit (s : Series Z) (k : Z) : Series bool :=
  fmap (M:=option) (λ v, bool_decide (v ≤ k)) <$> s.

(** [cast(pl.Int8)] of a boolean column: true is 1, false is 0, null is null. *)
Definition cast_Int8 (s : Series bool) : Series Z :=
  fmap (M:=option) Z.b2z <$> s.

(** [expr // k] on an integer column (floor division). *)
Definition floordiv_lit (s : Series Z) (k : Z) : Series Z :=
  fmap (M:=option) (λ v, v `div` k) <$> s.

(** [expr == lit]: null where the cell is null. *)
Definition eq_lit {A : Type} `{EqDecision A} (s : Series A) (lit : A) : Series bool :=
  fmap (M:=option) (λ v, bool_decide (v = lit)) <$> s.

(** Three-valued conjunction of two cells, polars' [&]. *)
Definition and_kleene (a b : option bool) : option bool :=
  match a, b with
  | Some false, _ | _, Some false => Some false
  | Some true, Some true => Some true
  | _, _ => None
  end.

Definition series_and (s1 s2 : Series bool) : Series bool :=
  zip_with and_kleene s1 s2.

(** [cast(pl.Utf8)] of an integer column: the decimal rendering. *)
Definition cast_Utf8 (s : Series Z) : Series string :=
  fmap (M:=option) pretty <$> s.

(** [DataFrame.filter(mask)]: the rows whose mask cell is true are kept, in
    order; rows whose mask cell is false or null are dropped. *)
Fixpoint frame_filter {R : Type} (df : list R) (mask : Series bool) : list R :=
  match df, mask with
  | r :: df, m :: mask =>
      match m with
      | Some true => r :: frame_filter df mask
      | _ => frame_filter df mask
      end
  | _, _ => []
  end.

(** [Series.sum()]: nulls are ignored; an empty or all-null column sums to 0. *)
Definition Series_sum (s : Series Z) : Z :=
  foldl (λ acc o, match o with Some v => acc + v | None => acc end) 0 s.

Definition Z2Qc (z : Z) : Qc := Q2Qc (inject_Z z).

(** [Series.mean()] / [pl.mean(name)]: the mean of the non-null cells, [None]
    when there is none. *)
Definition Series_mean (s : Series Z) : option Qc :=
  let '(tot, cnt) :=
    foldl (λ '(t, c) o, match o with Some v => (t + v, c + 1) | None => (t, c) end)
          (0, 0) s in
  if decide (cnt = 0) then None else Some (Z2Qc tot / Z2Qc cnt)%Qc.

(** ** load_data *)

Definition hhmm_to_minutes (s : Z) : Z := (s `div` 100) * 60 + (s `mod` 100).

(** The frame after the first [with_columns]. *)
Record Derived := {
  base :> FlightRecord;
  CRSDepMin : option Z;
  DepMin : option Z;
  CRSArrMin : option Z;
  ArrMin : option Z;
  OnTime : option Z;
  CancelledFlag : option Z;
}.

(** The frame [load_data] returns. *)
Record Normalized := {
  derived :> Derived;
  DepHour : option Z;
}.

(** [with_columns] glues the computed columns, cell by cell, to the rows. *)
Fixpoint with_columns6 (df : list FlightRecord) (c1 c2 c3 c4 c5 c6 : Series Z)
    : list Derived :=
  match df, c1, c2, c3, c4, c5, c6 with
  | r :: df, a :: c1, b :: c2, c :: c3, d :: c4, e :: c5, f :: c6 =>
      Build_Derived r a b c d e f :: with_columns6 df c1 c2 c3 c4 c5 c6
  | _, _, _, _, _, _, _ => []
  end.

Fixpoint with_column1 (df : list Derived) (c : Series Z) : list Normalized :=
  match df, c with
  | r :: df, a :: c => Build_Normalized r a :: with_column1 df c
  | _, _ => []
  end.

(** [load_data], from the frame [pl.read_csv] produced. *)
Definition load_data (df : list FlightRecord) : list Normalized :=
  let df1 :=
    with_columns6 df
      (map_elements hhmm_to_minutes (cast_Int64 (col CRSDepTime df)))
      (map_elements hhmm_to_minutes (cast_Int64 (col DepTime df)))
      (map_elements hhmm_to_minutes (cast_Int64 (col CRSArrTime df)))
      (map_elements hhmm_to_minutes (cast_Int64 (col ArrTime df)))
      (cast_Int8 (le_lit (col ArrDelayMinutes df) 15))
      (cast_Int8 (col Cancelled df)) in
  with_column1 df1 (floordiv_lit (col CRSDepMin df1) 60).





(** ** filter_df *)

(** The module-level values [filter_df] reads: the selection mode and the
    four sidebar choices. *)
Record Selection := {
  mode : string;
  orig : string;
  dest : string;
  carrier : string;
  flight : string;
}.

(** Python's [s[:k]] and [s[k:]]. *)
Fixpoint str_take (k : nat) (s : string) : string :=
  match k, s with
  | S k, String c s => String c (str_take k s)
  | _, _ => EmptyString
  end.

Fixpoint str_drop (k : nat) (s : string) : string :=
  match k, s with
  | S k, String _ s => str_drop k s
  | _, _ => s
  end.

Definition filter_df (sel : Selection) (df : list Normalized) : list Normalized :=
  if decide (mode sel = "airport") then
    frame_filter df (eq_lit (col (λ r : Normalized, Origin r) df) (orig sel))
  else if decide (mode sel = "route") then
    frame_filter df (series_and (eq_lit (col (λ r : Normalized, Origin r) df) (orig sel))
                                (eq_lit (col (λ r : Normalized, Dest r) df) (dest sel)))
  else if decide (mode sel = "airline_at_airport") then
    frame_filter df (series_and (eq_lit (col (λ r : Normalized, Origin r) df) (orig sel))
                                (eq_lit (col (λ r : Normalized, Operating_Airline r) df) (carrier sel)))
  else if decide (mode sel = "flight") then
    let f_car := str_take 2 (flight sel) in
    let f_no := str_drop 2 (flight sel) in
    frame_filter df
      (series_and (eq_lit (col (λ r : Normalized, Operating_Airline r) df) f_car)
                  (eq_lit (cast_Utf8 (col (λ r : Normalized, Flight_Number_Operating_Airline r) df)) f_no))
  else df.

(** ** compute_metrics *)

Module Metrics.
Record t := mk {
  n : nat;
  on_time_pct : option Qc;
  avg_delay : option Qc;
  cancel_rate : option Qc;
}.
End Metrics.

(** ** hour_stats *)

Module Hour.
(** A row after [group_by("DepHour").agg([...])]. *)
Record agg := mk_agg {
  key : option Z;
  len : nat;
  mean_OnTime : option Qc;
  mean_ArrDelayMinutes : option Qc;
}.
(** A row of [hour_stats]. *)
Record t := mk {
  DepHour : option Z;
  flights_n : nat;
  on_time_rate : option Qc;
  avg_arr_delay : option Qc;
  on_time_pct : option Qc;
}.
End Hour.

(** [group_by("DepHour")]: the rows of each distinct key, null being a key of
    its own; each group keeps its rows in frame order. *)
Definition group_by_DepHour (df : list Normalized) : gmap (option Z) (list Normalized) :=
  foldr (λ r m, <[DepHour r := r :: default [] (m !! DepHour r)]> m) ∅ df.

(** Ascending order of a nullable key, nulls first (polars' default). *)
Definition key_le (a b : option Z) : Prop :=
  match a, b with
  | None, _ => True
  | Some _, None => False
  | Some x, Some y => x ≤ y
  end.

Definition key_lt (a b : option Z) : Prop :=
  match a, b with
  | None, Some _ => True
  | Some x, Some y => x < y
  | _, None => False
  end.

Definition hour_le (x y : Hour.t) : Prop := key_le (Hour.DepHour x) (Hour.DepHour y).

Global Instance key_le_dec a b : Decision (key_le a b).
Proof. destruct a, b; simpl; apply _. Defined.

Global Instance key_lt_dec a b : Decision (key_lt a b).
Proof. destruct a, b; simpl; apply _. Defined.

Global Instance hour_le_dec x y : Decision (hour_le x y).
Proof. unfold hour_le; apply _. Defined.

(** What the page shows below the KPI cards. *)
Inductive Charts :=
  | ChartsShown (rows : list Hour.t)
  | NoMatchInfo.

Section Rounding.
(** [py_round1 x] is Python's [round(x, 1)], [pl_round1] polars'
    [Expr.round(1)]. *)
Variable py_round1 pl_round1 : Qc → Qc.

Definition compute_metrics (fdf : list Normalized) : Metrics.t :=
  let n := length fdf in
  if decide (n = 0%nat) then Metrics.mk 0 None None None
  else
    let on_time := Series_sum (col (λ r : Normalized, OnTime r) fdf) in
    let cancels := Series_sum (col (λ r : Normalized, CancelledFlag r) fdf) in
    let avg_delay := Series_mean (col (λ r : Normalized, ArrDelayMinutes r) fdf) in
    Metrics.mk n
      (Some (py_round1 (Z2Qc on_time / Z2Qc (Z.of_nat n) * Z2Qc 100)%Qc))
      (py_round1 <$> avg_delay)
      (Some (py_round1 (Z2Qc cancels / Z2Qc (Z.of_nat n) * Z2Qc 100)%Qc)).

(** The three aggregates of one group. *)
Definition agg_group (g : option Z * list Normalized) : Hour.agg :=
  Hour.mk_agg g.1 (length g.2)
    (Series_mean (col (λ r : Normalized, OnTime r) g.2))
    (Series_mean (col (λ r : Normalized, ArrDelayMinutes r) g.2)).

(** [with_columns([(pl.col("on_time_rate") * 100).round(1)])]. *)
Definition add_on_time_pct (a : Hour.agg) : Hour.t :=
  Hour.mk (Hour.key a) (Hour.len a) (Hour.mean_OnTime a) (Hour.mean_ArrDelayMinutes a)
    ((λ q, pl_round1 (q * Z2Qc 100)%Qc) <$> Hour.mean_OnTime a).

(** The [hour_stats] pipeline.  polars returns the groups in no particular
    order; the enumeration order of the map stands for it. *)
Definition hour_stats (fdf : list Normalized) : list Hour.t :=
  merge_sort hour_le
    (add_on_time_pct <$> (agg_group <$> map_to_list (group_by_DepHour fdf))).

(** [if fdf.height > 0: ... else: st.info(...)]. *)
Definition charts (fdf : list Normalized) : Charts :=
  if decide (0 < length fdf)%nat then ChartsShown (hour_stats fdf) else NoMatchInfo.
End Rounding.

(** An exact one-decimal rounding (ties to even), used to run the
    definitions on examples. *)
Definition round1_half_even (q : Qc) : Qc :=
  let x := (q * Z2Qc 10)%Qc in
  let f := Qfloor x in
  let r := (x - Z2Qc f)%Qc in
  let up := (Z2Qc (f + 1) / Z2Qc 10)%Qc in
  let down := (Z2Qc f / Z2Qc 10)%Qc in
  match r ?= Q2Qc (1 # 2) with
  | Lt => down
  | Gt => up
  | Eq => if Z.even f then down else up
  end%Qc.

(** ** Row-wise reading of the column pipeline *)

(** What the first [with_columns] computes for one row. *)
Definition derive_row (r : FlightRecord) : Derived :=
  {| base := r;
     CRSDepMin := hhmm_to_minutes <$> CRSDepTime r;
     DepMin := hhmm_to_minutes <$> DepTime r;
     CRSArrMin := hhmm_to_minutes <$> CRSArrTime r;
     ArrMin := hhmm_to_minutes <$> ArrTime r;
     OnTime := (λ d, Z.b2z (bool_decide (d ≤ 15))) <$> ArrDelayMinutes r;
     CancelledFlag := Z.b2z <$> Cancelled r |}.

Definition normalize_row (r : FlightRecord) : Normalized :=
  {| derived := derive_row r;
     DepHour := (λ m, m `div` 60) <$> CRSDepMin (derive_row r) |}.

(** The non-null cells of a column, and the plain mean of a list of integers. *)
Definition present {A : Type} (s : Series A) : list A := omap id s.

Definition Zsum (l : list Z) : Z := foldr Z.add 0 l.

Definition mean_of (l : list Z) : option Qc :=
  match l with
  | [] => None
  | _ => Some (Z2Qc (Zsum l) / Z2Qc (Z.of_nat (length l)))%Qc
  end.

(** The four recognised selection modes. *)
Definition recognized_mode (m : string) : Prop :=
  m = "airport" ∨ m = "route" ∨ m = "airline_at_airport" ∨ m = "flight".

(** ** Sample data *)

Definition sample_row (airline : string) (number : Z) (origin destination : string)
    (dep : option Z) (delay : option Z) (cancelled : bool) : FlightRecord :=
  {| FlightDate := Some "2024-01-01";
     Operating_Airline := Some airline;
     Flight_Number_Operating_Airline := Some number;
     Origin := Some origin; Dest := Some destination;
     CRSDepTime := dep; DepTime := dep; CRSArrTime := dep; ArrTime := dep;
     ArrDelayMinutes := delay; Cancelled := Some cancelled |}.

(** Four flights with delays 5, 20, null, 0 and one cancellation. *)
Definition flight_a : FlightRecord := sample_row "AA" 101 "JFK" "LAX" (Some 800) (Some 5) false.
Definition flight_b : FlightRecord := sample_row "AA" 101 "JFK" "BOS" (Some 1515) (Some 20) false.
Definition flight_c : FlightRecord := sample_row "AA" 101 "JFK" "LAX" (Some 830) None true.
Definition flight_d : FlightRecord := sample_row "AA" 101 "JFK" "LAX" None (Some 0) false.

Definition sample_raw : list FlightRecord := [flight_a; flight_b; flight_c; flight_d].

Definition sample : list Normalized := load_data sample_raw.

(** The same four delays, all scheduled to depart between 08:00 and 08:59. *)
Definition same_hour_raw : list FlightRecord :=
  [ sample_row "AA" 101 "JFK" "LAX" (Some 800) (Some 5) false;
    sample_row "AA" 102 "JFK" "LAX" (Some 815) (Some 20) false;
    sample_row "AA" 103 "JFK" "BOS" (Some 830) None true;
    sample_row "AA" 104 "JFK" "LAX" (Some 845) (Some 0) false ].

Definition same_hour : list Normalized := load_data same_hour_raw.

Definition JFK_to_LAX : Selection :=
  {| mode := "route"; orig := "JFK"; dest := "LAX"; carrier := "AA"; flight := "AA101" |}.

(** ** Row-wise reading of the selection *)

(** The row test each branch of [filter_df] amounts to. *)
Definition selects (sel : Selection) (r : Normalized) : Prop :=
  if decide (mode sel = "airport") then Origin r = Some (orig sel)
  else if decide (mode sel = "route") then
    Origin r = Some (orig sel) ∧ Dest r = Some (dest sel)
  else if decide (mode sel = "airline_at_airport") then
    Origin r = Some (orig sel) ∧ Operating_Airline r = Some (carrier sel)
  else if decide (mode sel = "flight") then
    Operating_Airline r = Some (str_take 2 (flight sel)) ∧
    pretty <$> Flight_Number_Operating_Airline r = Some (str_drop 2 (flight sel))
  else True.

Global Instance selects_dec sel r : Decision (selects sel r).
Proof. unfold selects. repeat case_decide; apply _. Defined.

(** The same sidebar choices under another view. *)
Definition with_mode (m : string) (sel : Selection) : Selection :=
  {| mode := m; orig := orig sel; dest := dest sel;
     carrier := carrier sel; flight := flight sel |}.

(** ** Row-wise reading of the KPI counts *)

(** A flight that arrived with a recorded delay of at most 15 minutes. *)
Definition arrived_on_time (r : FlightRecord) : Prop :=
  match ArrDelayMinutes r with
  | Some d => d ≤ 15
  | None => False
  end.

Global Instance arrived_on_time_dec r : Decision (arrived_on_time r).
Proof. unfold arrived_on_time. destruct (ArrDelayMinutes r); apply _. Defined.

(** ** KPI cards *)

(** What is handed to [st.metric] as the value of a card: the row count, a
    float, or a text. *)
Inductive KpiValue :=
  | KpiInt (n : nat)
  | KpiFloat (q : Qc)
  | KpiText (s : string).

Module Cards.
Record t := mk {
  flights : KpiValue;
  on_time : KpiValue;
  avg_arr_delay : KpiValue;
  cancel : KpiValue;
}.
End Cards.

Section Cards.
(** [fmt q] is the text an f-string gives for the float [q]. *)
Variable fmt : Qc → string.

Definition kpi_cards (metrics : Metrics.t) : Cards.t :=
  Cards.mk
    (KpiInt (Metrics.n metrics))
    (KpiText (match Metrics.on_time_pct metrics with
              | None => "-"
              | Some q => String.append (fmt q) "%"
              end))
    (match Metrics.avg_delay metrics with
     | None => KpiText "-"
     | Some q => KpiFloat q
     end)
    (KpiText (match Metrics.cancel_rate metrics with
              | None => "-"
              | Some q => String.append (fmt q) "%"
              end)).
End Cards.

(** ** Sidebar option lists *)

(** A Python value or the [TypeError] raised while computing it. *)
Inductive PyResult (A : Type) :=
  | Ok (a : A)
  | TypeError.
Global Arguments Ok {A} a.
Global Arguments TypeError {A}.

(** Python's [<=] and [<] on [str]: lexicographic by character code. *)
Definition str_le (a b : string) : Prop := String.leb a b = true.
Definition str_lt (a b : string) : Prop := String.ltb a b = true.

Global Instance str_le_dec a b : Decision (str_le a b).
Proof. unfold str_le. apply _. Defined.

(** The order [sorted] uses on the cells it can compare. *)
Definition cell_le (a b : option string) : Prop :=
  match a, b with
  | Some x, Some y => str_le x y
  | None, _ => True
  | Some _, None => False
  end.

Global Instance cell_le_dec a b : Decision (cell_le a b).
Proof. destruct a, b; simpl; apply _. Defined.

(** [sorted(values)] on a list of [str] and [None]: comparing [None] with
    anything raises [TypeError], and every element of a list of two or more
    is compared at least once. *)
Definition py_sorted (l : list (option string)) : PyResult (list (option string)) :=
  if decide (None ∈ l ∧ (2 ≤ length l)%nat) then TypeError
  else Ok (merge_sort cell_le l).

(** [s1 + s2] on two string columns: null where either cell is null. *)
Definition str_concat (s1 s2 : Series string) : Series string :=
  zip_with (λ a b, match a, b with
                   | Some x, Some y => Some (String.append x y)
                   | _, _ => None
                   end) s1 s2.

(** [sorted(set(df["Origin"].to_list()) | set(df["Dest"].to_list()))]. *)
Definition airports (df : list Normalized) : PyResult (list (option string)) :=
  py_sorted (remove_dups (col (λ r : Normalized, Origin r) df
                          ++ col (λ r : Normalized, Dest r) df)).

(** [sorted(df["Operating_Airline"].unique().to_list())]. *)
Definition airlines (df : list Normalized) : PyResult (list (option string)) :=
  py_sorted (remove_dups (col (λ r : Normalized, Operating_Airline r) df)).

(** [sorted((df["Operating_Airline"]
             + df["Flight_Number_Operating_Airline"].cast(pl.Utf8))
            .unique().to_list())]. *)
Definition flight_ids (df : list Normalized) : PyResult (list (option string)) :=
  py_sorted
    (remove_dups
       (str_concat (col (λ r : Normalized, Operating_Airline r) df)
          (cast_Utf8 (col (λ r : Normalized, Flight_Number_Operating_Airline r) df)))).

(** [options.index(name) if name in options else 0], the position the
    select box starts at. *)
Definition default_index (options : list (option string)) (name : string) : nat :=
  match list_find (λ o, o = Some name) options with
  | Some (i, _) => i
  | None => 0%nat
  end.


(** A table in which one flight has no origin. *)
Definition flight_no_origin : FlightRecord :=
  {| FlightDate := Some "2024-01-02";
     Operating_Airline := Some "AA"; Flight_Number_Operating_Airline := Some 7;
     Origin := None; Dest := Some "LAX";
     CRSDepTime := Some 900; DepTime := Some 905;
     CRSArrTime := Some 1200; ArrTime := Some 1210;
     ArrDelayMinutes := Some 10; Cancelled := Some false |}.

Definition no_origin_raw : list FlightRecord := [flight_a; flight_no_origin].

Definition flight_view (id : string) : Selection :=
  {| mode := "flight"; orig := "JFK"; dest := "LAX"; carrier := "AA"; flight := id |}.

(** ** The Flightera client ([app/services/flightera_client.py])

    The process environment is a dictionary; [requests.get] and
    [Response.json] are parameters; a call returns its outcome together with
    the requests it sent. *)

Module Client.

Inductive ParamValue :=
  | PStr (s : string)
  | PInt (z : Z).

Record Request := {
  url : string;
  headers : list (string * string);
  params : list (string * ParamValue);
  timeout : Z;
}.

Record Response := {
  status_code : Z;
  text : string;
}.

(** What a call ends in: the decoded body, the module's own
    [LiveAPIError], or an exception of [requests]. *)
Inductive Outcome (Json NetError : Type) :=
  | Returned (j : Json)
  | LiveAPIError (msg : string)
  | JSONDecodeError
  | RequestException (e : NetError).
Global Arguments Returned {Json NetError} j.
Global Arguments LiveAPIError {Json NetError} msg.
Global Arguments JSONDecodeError {Json NetError}.
Global Arguments RequestException {Json NetError} e.

(** Python's [s.lstrip(c)] for a single character [c]. *)
Fixpoint lstrip (c : Ascii.ascii) (s : string) : string :=
  match s with
  | String c' s' => if decide (c' = c) then lstrip c s' else s
  | EmptyString => EmptyString
  end.

(** Truth value of [os.getenv(name)]: unset and empty are both false. *)
Definition truthy (v : option string) : bool :=
  match v with
  | Some (String _ _) => true
  | _ => false
  end.

Section Client.
Context {Json NetError : Type}.
Variable environ : gmap string string.
(** [requests.get(url, headers=..., params=..., timeout=...)] *)
Variable send : Request → Response + NetError.
(** [Response.json()], [None] when the body is not JSON. *)
Variable json : string → option Json.

Definition HOST : string :=
  default "flightera-flight-data.p.rapidapi.com" (environ !! "RAPIDAPI_HOST").

Definition KEY : option string := environ !! "RAPIDAPI_KEY".

Definition _headers : string + list (string * string) :=
  match KEY with
  | Some (String c k) =>
      inr [("x-rapidapi-host", HOST); ("x-rapidapi-key", String c k)]
  | _ => inl "Missing RAPIDAPI_KEY"
  end.

Definition _get (path : string) (params : list (string * ParamValue))
    : Outcome Json NetError * list Request :=
  let url := String.append "https://"
               (String.append HOST (String.append "/" (lstrip "/"%char path))) in
  match _headers with
  | inl msg => (LiveAPIError msg, [])
  | inr hs =>
      let req := Build_Request url hs params 20 in
      match send req with
      | inr e => (RequestException e, [req])
      | inl r =>
          if decide (status_code r ≠ 200) then
            (LiveAPIError
               (String.append (pretty (status_code r))
                  (String.append ": " (str_take 400 (text r)))), [req])
          else
            match json (text r) with
            | Some j => (Returned j, [req])
            | None => (JSONDecodeError, [req])
            end
      end
  end.

Definition flight_status_by_number (flight : string) :=
  _get "flights/status" [("flight", PStr flight)].

(** [airport_departures(iata, hours=6)]; [None] stands for the omitted
    argument. *)
Definition airport_departures (iata : string) (hours : option Z) :=
  _get "airports/departures"
    [("iata", PStr iata); ("hours", PInt (default 6 hours)); ("limit", PInt 50)].

End Client.
End Client.

(** * Properties *)

(** Closes an equation or disequation between concrete rationals. *)
Ltac qc_compare :=
  first [ reflexivity
        | f_equal; apply Qc_is_canon; reflexivity
        | let H := fresh in intros H; vm_compute in H; discriminate H ].

(** ** load_data *)

Lemma with_columns6_fmap (df : list FlightRecord) (f1 f2 f3 f4 f5 f6 : FlightRecord → option Z) :
  with_columns6 df (f1 <$> df) (f2 <$> df) (f3 <$> df) (f4 <$> df) (f5 <$> df) (f6 <$> df)
  = (λ r, Build_Derived r (f1 r) (f2 r) (f3 r) (f4 r) (f5 r) (f6 r)) <$> df.
Proof. induction df as [|r df IH]; csimpl; [done|]. by rewrite IH. Qed.

Lemma with_column1_fmap (df : list Derived) (f : Derived → option Z) :
  with_column1 df (f <$> df) = (λ r, Build_Normalized r (f r)) <$> df.
Proof. induction df as [|r df IH]; csimpl; [done|]. by rewrite IH. Qed.

(** The column pipeline of [load_data] computes [normalize_row] on each row. *)
Lemma load_data_rows (df : list FlightRecord) :
  load_data df = normalize_row <$> df.
Proof.
  unfold load_data, map_elements, cast_Int64, cast_Int8, le_lit, floordiv_lit, col.
  rewrite <- !(list_fmap_compose _ _ df), with_columns6_fmap.
  match goal with |- with_column1 ?d _ = _ => set (df1 := d) end.
  rewrite <- (list_fmap_compose _ _ df1), with_column1_fmap. subst df1.
  rewrite <- list_fmap_compose. apply list_fmap_ext. intros _ r _.
  unfold normalize_row, derive_row; simpl. do 2 f_equal.
  by destruct (ArrDelayMinutes r).
Qed.

Lemma elem_of_load_data (df : list FlightRecord) (r' : Normalized) :
  r' ∈ load_data df ↔ ∃ r, r' = normalize_row r ∧ r ∈ df.
Proof. rewrite load_data_rows. apply list_elem_of_fmap. Qed.

(** Membership of a row in a literal table. *)
Ltac in_table :=
  apply elem_of_load_data; eexists; split; [reflexivity|];
  repeat first [ apply list_elem_of_here | apply list_elem_of_further ].






(** C5 (as amended): in every normalised row each of the four minute fields
    is (clock div 100) * 60 + (clock mod 100) of its clock value when that is
    present, and is missing (so not 0) when the clock value is missing;
    1515 gives 915 and 800 gives 480. *)
Theorem minutes_since_midnight (df : list FlightRecord) (r' : Normalized) :
  r' ∈ load_data df →
  let minutes := λ c : Z, (c `div` 100) * 60 + (c `mod` 100) in
  (CRSDepMin r' = minutes <$> CRSDepTime r' ∧
   DepMin r' = minutes <$> DepTime r' ∧
   CRSArrMin r' = minutes <$> CRSArrTime r' ∧
   ArrMin r' = minutes <$> ArrTime r') ∧
  ((CRSDepTime r' = None → CRSDepMin r' = None ∧ CRSDepMin r' ≠ Some 0) ∧
   (DepTime r' = None → DepMin r' = None ∧ DepMin r' ≠ Some 0) ∧
   (CRSArrTime r' = None → CRSArrMin r' = None ∧ CRSArrMin r' ≠ Some 0) ∧
   (ArrTime r' = None → ArrMin r' = None ∧ ArrMin r' ≠ Some 0)) ∧
  (minutes 1515 = 915 ∧ minutes 800 = 480).
Proof.
  intros (r & -> & _)%elem_of_load_data minutes. simpl.
  split_and!; try reflexivity; by intros ->.
Qed.

Lemma minutes_since_midnight_witness :
  CRSDepMin (normalize_row flight_b) = Some 915.
Proof.
  destruct (minutes_since_midnight sample_raw (normalize_row flight_b)) as [[H _] _].
  - in_table.
  - rewrite H. reflexivity.
Defined.

(** The clock value 1515 (a quarter past three in the afternoon) is minute
    915 of the day, not 975. *)
Lemma minutes_1515_counterexample :
  hhmm_to_minutes 1515 = 915 ∧
  ((λ r : Normalized, CRSDepMin r) <$> sample !! 1%nat) = Some (Some 915) ∧
  ((λ r : Normalized, CRSDepMin r) <$> sample !! 1%nat) ≠ Some (Some 975).
Proof. split_and!; [reflexivity | reflexivity | by vm_compute]. Qed.

(** ** On-time flag *)

(** C1 (as amended): in every normalised row [OnTime] is 1 exactly when the
    arrival delay is present and at most 15, 0 exactly when it is present and
    above 15, and null exactly when the delay is missing. *)
Theorem on_time_classification (df : list FlightRecord) (r' : Normalized) :
  r' ∈ load_data df →
  (OnTime r' = Some 1 ↔ ∃ d, ArrDelayMinutes r' = Some d ∧ d ≤ 15) ∧
  (OnTime r' = Some 0 ↔ ∃ d, ArrDelayMinutes r' = Some d ∧ 15 < d) ∧
  (OnTime r' = None ↔ ArrDelayMinutes r' = None) ∧
  (ArrDelayMinutes r' = Some 10 → OnTime r' = Some 1) ∧
  (ArrDelayMinutes r' = Some 16 → OnTime r' = Some 0).
Proof.
  intros (r & -> & _)%elem_of_load_data. simpl.
  destruct (ArrDelayMinutes r) as [d|]; simpl.
  - case_bool_decide; simpl; split_and!; try (split; [|intros (? & [= <-] & ?)]);
      try done; try lia; try (intros _; eexists; split; [done|lia]);
      intros [= ->]; lia.
  - split_and!; try done; split; try done; by intros (? & ? & _).
Qed.

Lemma on_time_classification_witness :
  OnTime (normalize_row flight_a) = Some 1.
Proof.
  destruct (on_time_classification sample_raw (normalize_row flight_a)) as [[_ H] _].
  - in_table.
  - apply H. exists 5. split; [reflexivity | lia].
Defined.

(** A row without arrival delay gets a null [OnTime], not 0. *)
Lemma on_time_missing_delay_counterexample :
  ∃ r' : Normalized, sample !! 2%nat = Some r' ∧ ArrDelayMinutes r' = None ∧
        OnTime r' = None ∧ OnTime r' ≠ Some 0.
Proof. eexists. by split_and!. Qed.

(** ** Departure hour *)

(** C8 (as amended): in every normalised row with a scheduled departure clock
    value, [DepHour] is the scheduled departure minute div 60; it lies in
    0..23 when the clock value lies in 0..2359. *)
Theorem departure_hour_bucket (df : list FlightRecord) (r' : Normalized) (c : Z) :
  r' ∈ load_data df →
  CRSDepTime r' = Some c →
  ∃ m, CRSDepMin r' = Some m ∧ DepHour r' = Some (m `div` 60) ∧
       (0 ≤ c ≤ 2359 → 0 ≤ m `div` 60 ≤ 23).
Proof.
  intros (r & -> & _)%elem_of_load_data. simpl. intros ->. simpl.
  eexists. split_and!; [done..|]. intros Hc. unfold hhmm_to_minutes.
  assert (0 ≤ c `mod` 100 < 100) by (apply Z.mod_pos_bound; lia).
  assert (0 ≤ c `div` 100 ≤ 23) as Hh.
  { split; [apply Z.div_pos; lia|]. apply Z.lt_succ_r, Z.div_lt_upper_bound; lia. }
  assert (c = 100 * (c `div` 100) + c `mod` 100) as Hdm by (apply Z.div_mod; lia).
  split; [apply Z.div_pos; lia|].
  apply Z.lt_succ_r, Z.div_lt_upper_bound; lia.
Qed.

Lemma departure_hour_bucket_witness :
  ∃ m, CRSDepMin (normalize_row flight_a) = Some m ∧
       DepHour (normalize_row flight_a) = Some (m `div` 60) ∧
       (0 ≤ 800 ≤ 2359 → 0 ≤ m `div` 60 ≤ 23).
Proof.
  apply (departure_hour_bucket sample_raw (normalize_row flight_a) 800).
  - in_table.
  - reflexivity.
Defined.

(** A scheduled departure clock value of 2400 lands in bucket 24. *)
Lemma departure_hour_2400_counterexample :
  ∃ r' : Normalized, load_data [sample_row "AA" 7 "JFK" "LAX" (Some 2400) (Some 0) false] = [r'] ∧
        CRSDepTime r' = Some 2400 ∧ DepHour r' = Some 24 ∧
        ¬ (∃ h, DepHour r' = Some h ∧ 0 ≤ h ≤ 23).
Proof.
  eexists. split_and!; [reflexivity..|].
  intros (h & Hh & ?). vm_compute in Hh. injection Hh as <-. lia.
Qed.

(** ** filter_df *)

Lemma frame_filter_fmap {R : Type} (p : R → option bool) (df : list R) :
  frame_filter df (p <$> df) = filter (λ r, p r = Some true) df.
Proof.
  induction df as [|r df IH]; csimpl; [done|].
  rewrite filter_cons, IH.
  destruct (p r) as [[]|]; by case_decide.
Qed.

Lemma series_and_fmap {R : Type} (f g : R → option bool) (df : list R) :
  series_and (f <$> df) (g <$> df) = (λ r, and_kleene (f r) (g r)) <$> df.
Proof. induction df as [|r df IH]; csimpl; [done|]. by f_equal. Qed.

Lemma and_kleene_true (a b : option bool) :
  and_kleene a b = Some true ↔ a = Some true ∧ b = Some true.
Proof. destruct a as [[]|], b as [[]|]; simpl; split; (done || by intros []). Qed.

Lemma eq_lit_true {A : Type} `{EqDecision A} (c : option A) (lit : A) :
  (λ v, bool_decide (v = lit)) <$> c = Some true ↔ c = Some lit.
Proof.
  destruct c as [v|]; simpl; [|split; discriminate].
  split.
  - intros [= Hv%bool_decide_eq_true]. by subst.
  - intros [= ->]. by rewrite bool_decide_eq_true_2.
Qed.

(** A mask built from two [==] tests joined by [&] keeps the rows on which
    both cells are present and equal to their literals. *)
Lemma frame_filter_and_eq {R A B : Type} `{EqDecision A, EqDecision B}
    (f : R → option A) (g : R → option B) (a : A) (b : B) (df : list R) :
  frame_filter df (series_and (eq_lit (col f df) a) (eq_lit (col g df) b))
  = filter (λ r, f r = Some a ∧ g r = Some b) df.
Proof.
  unfold eq_lit, col. rewrite <- !list_fmap_compose, series_and_fmap, frame_filter_fmap.
  apply list_filter_iff. intros r. simpl.
  by rewrite and_kleene_true, !eq_lit_true.
Qed.

Lemma filter_none {A : Type} (P : A → Prop) `{∀ x, Decision (P x)} (l : list A) :
  (∀ x, x ∈ l → ¬ P x) → filter P l = [].
Proof.
  intros Hl. destruct (filter P l) as [|x l'] eqn:Hf; [done|].
  assert (x ∈ filter P l) as [HP Hx]%list_elem_of_filter by (rewrite Hf; left).
  by destruct (Hl x Hx).
Qed.

Lemma filter_df_subseteq (sel : Selection) (df : list Normalized) :
  filter_df sel df ⊆ df.
Proof.
  assert (∀ m, frame_filter df m ⊆ df) as Hsub.
  { induction df as [|r df IH]; intros [|[[]|] m]; simpl; try done;
      try (by apply list_subseteq_nil); try (by apply list_subseteq_cons, IH).
    by apply list_subseteq_skip. }
  unfold filter_df. repeat case_decide; auto.
Qed.

Lemma str_take_drop (k : nat) (s : string) :
  String.append (str_take k s) (str_drop k s) = s.
Proof.
  revert s. induction k as [|k IH]; intros [|c s]; try done.
  change (String c (String.append (str_take k s) (str_drop k s)) = String c s).
  by rewrite IH.
Qed.

Lemma str_take_length (k : nat) (s : string) :
  String.length (str_take k s) = (k `min` String.length s)%nat.
Proof.
  revert s. induction k as [|k IH]; intros [|c s]; simpl; try done.
  by rewrite IH.
Qed.

(** C2 (as amended): with a selection mode that is none of the four
    recognised ones, [filter_df] returns the table unchanged. *)
Theorem filter_df_unrecognized_mode (sel : Selection) (df : list Normalized) :
  ¬ recognized_mode (mode sel) → filter_df sel df = df.
Proof.
  unfold recognized_mode, filter_df. intros Hm.
  repeat case_decide; naive_solver.
Qed.

Lemma filter_df_unrecognized_mode_witness :
  filter_df (Build_Selection "bogus" "ZZZ" "ZZZ" "ZZ" "ZZ0") sample = sample.
Proof.
  apply filter_df_unrecognized_mode. simpl. unfold recognized_mode.
  intros [H|[H|[H|H]]]; discriminate H.
Defined.

(** With the unknown mode "bogus" the whole four-row table comes back, no
    error is raised and nothing is filtered, although the origin "ZZZ" occurs
    in no row. *)
Lemma filter_df_unrecognized_mode_counterexample :
  let sel := Build_Selection "bogus" "ZZZ" "ZZZ" "ZZ" "ZZ0" in
  ¬ recognized_mode (mode sel) ∧
  filter_df sel sample = sample ∧
  length (filter_df sel sample) = 4%nat ∧
  filter_df (Build_Selection "airport" "ZZZ" "ZZZ" "ZZ" "ZZ0") sample = [].
Proof.
  split_and!; [|reflexivity..].
  unfold recognized_mode. simpl. intros [H|[H|[H|H]]]; discriminate H.
Qed.

(** ** Column aggregates *)

Lemma Series_sum_present (s : Series Z) : Series_sum s = Zsum (present s).
Proof.
  unfold Series_sum.
  assert (∀ acc, foldl (λ acc o, match o with Some v => acc + v | None => acc end) acc s
                 = acc + Zsum (present s)) as H; [|by rewrite H].
  induction s as [|[v|] s IH]; intros acc; simpl.
  - lia.
  - rewrite IH. unfold present; simpl. lia.
  - by rewrite IH.
Qed.

Lemma Series_mean_present (s : Series Z) : Series_mean s = mean_of (present s).
Proof.
  unfold Series_mean.
  assert (∀ t c,
    foldl (λ '(t, c) o, match o with Some v => (t + v, c + 1) | None => (t, c) end)
          (t, c) s
    = (t + Zsum (present s), c + Z.of_nat (length (present s)))) as H.
  { induction s as [|[v|] s IH]; intros t c; simpl.
    - f_equal; lia.
    - rewrite IH. unfold present; simpl. f_equal; lia.
    - by rewrite IH. }
  rewrite H. simpl. destruct (present s) as [|d ds]; simpl; [done|].
  by rewrite !Z.add_0_l.
Qed.

Lemma present_nil_iff {A : Type} (s : Series A) :
  present s = [] ↔ ∀ o, o ∈ s → o = None.
Proof.
  unfold present. induction s as [|[v|] s IH]; simpl.
  - split; [|done]. intros _ o Ho. by apply elem_of_nil in Ho.
  - split; [done|]. intros H. by specialize (H (Some v) (list_elem_of_here _ _)).
  - rewrite IH. split.
    + intros H o [->|Ho]%elem_of_cons; auto.
    + intros H o Ho. apply H. by right.
Qed.

(** ** compute_metrics *)

(** C4: on a non-empty subset [avg_delay] is the rounded mean of the delays
    that are present (sum of the present values over their number), and null
    when no delay is present. *)
Theorem avg_delay_mean_of_present (py_round1 : Qc → Qc) (fdf : list Normalized) :
  fdf ≠ [] →
  let ds := present (col (λ r : Normalized, ArrDelayMinutes r) fdf) in
  Metrics.n (compute_metrics py_round1 fdf) = length fdf ∧
  Metrics.avg_delay (compute_metrics py_round1 fdf)
  = match ds with
    | [] => None
    | _ => Some (py_round1 (Z2Qc (Zsum ds) / Z2Qc (Z.of_nat (length ds)))%Qc)
    end ∧
  ((∀ r : Normalized, r ∈ fdf → ArrDelayMinutes r = None) →
   Metrics.avg_delay (compute_metrics py_round1 fdf) = None).
Proof.
  intros Hne ds. unfold compute_metrics.
  case_decide as Hn; [by destruct fdf|]. simpl.
  rewrite Series_mean_present. fold ds. split_and!; [done| |].
  - by destruct ds.
  - intros Hnone. assert (ds = []) as ->; [|done].
    apply present_nil_iff. intros o (r & -> & Hr)%list_elem_of_fmap. auto.
Qed.

(** The scenario with delays 5, 20, null, 0: the mean is over 5, 20 and 0
    only (25/3, shown as 8.3), not over four values with the null as 0. *)
Lemma avg_delay_mean_of_present_witness :
  Metrics.avg_delay (compute_metrics round1_half_even sample) = Some (Q2Qc (83 # 10)) ∧
  Metrics.avg_delay (compute_metrics round1_half_even sample)
  ≠ Some (round1_half_even (Z2Qc 25 / Z2Qc 4)%Qc).
Proof.
  destruct (avg_delay_mean_of_present round1_half_even sample) as (_ & H & _); [done|].
  rewrite H. split.
  - reflexivity.
  - intros Heq. vm_compute in Heq. discriminate Heq.
Defined.

(** C3: when the selection matches no row, [compute_metrics] returns n = 0
    with the three rates null, the hourly pipeline yields no bucket, and the
    page shows the "no flights match" notice. *)
Theorem empty_selection (py_round1 pl_round1 : Qc → Qc)
    (sel : Selection) (df : list Normalized) :
  filter_df sel df = [] →
  compute_metrics py_round1 (filter_df sel df) = Metrics.mk 0 None None None ∧
  hour_stats pl_round1 (filter_df sel df) = [] ∧
  charts pl_round1 (filter_df sel df) = NoMatchInfo.
Proof.
  intros ->. split_and!; [done| |done].
  unfold hour_stats, group_by_DepHour. simpl. by rewrite map_to_list_empty.
Qed.

Lemma empty_selection_witness :
  let fdf := filter_df (Build_Selection "airport" "YYZ" "LAX" "AA" "AA101") sample in
  compute_metrics round1_half_even fdf = Metrics.mk 0 None None None ∧
  hour_stats round1_half_even fdf = [] ∧
  charts round1_half_even fdf = NoMatchInfo.
Proof.
  apply (empty_selection round1_half_even round1_half_even). reflexivity.
Defined.

(** C7: in "flight" mode the first two characters of the selection string are
    the carrier and the rest is the flight-number string; exactly the rows
    whose airline is that carrier and whose flight number, written in decimal,
    is that rest are kept, in order; when no flight number matches the rest
    the result is the n = 0 metrics record. *)
Theorem filter_df_flight_number (py_round1 : Qc → Qc)
    (sel : Selection) (df : list Normalized) :
  mode sel = "flight" →
  let f_car := str_take 2 (flight sel) in
  let f_no := str_drop 2 (flight sel) in
  (String.append f_car f_no = flight sel ∧
   String.length f_car = (2 `min` String.length (flight sel))%nat) ∧
  filter_df sel df
  = filter (λ r : Normalized,
              Operating_Airline r = Some f_car ∧
              pretty <$> Flight_Number_Operating_Airline r = Some f_no) df ∧
  ((∀ r : Normalized, r ∈ df →
      pretty <$> Flight_Number_Operating_Airline r ≠ Some f_no) →
   filter_df sel df = [] ∧
   compute_metrics py_round1 (filter_df sel df) = Metrics.mk 0 None None None).
Proof.
  intros Hm f_car f_no.
  assert (filter_df sel df
          = filter (λ r : Normalized,
              Operating_Airline r = Some f_car ∧
              pretty <$> Flight_Number_Operating_Airline r = Some f_no) df) as Heq.
  { unfold filter_df. rewrite Hm. repeat (case_decide; [discriminate|]).
    case_decide; [|done]. unfold cast_Utf8, col at 2.
    rewrite <- list_fmap_compose.
    apply (frame_filter_and_eq (λ r : Normalized, Operating_Airline r)
             (λ r : Normalized, pretty <$> Flight_Number_Operating_Airline r)). }
  split_and!; [apply str_take_drop | apply str_take_length | done |].
  intros Hno. assert (filter_df sel df = []) as ->; [|done].
  rewrite Heq. apply filter_none.
  intros r Hr [_ ?]. by apply (Hno r).
Qed.

Lemma filter_df_flight_number_witness :
  let sel := Build_Selection "flight" "JFK" "LAX" "AA" "AA100" in
  (str_take 2 (flight sel) = "AA" ∧ str_drop 2 (flight sel) = "100") ∧
  filter_df sel sample = [] ∧
  Metrics.n (compute_metrics round1_half_even (filter_df sel sample)) = 0%nat.
Proof.
  intros sel. split; [by split|].
  destruct (filter_df_flight_number round1_half_even sel sample) as (_ & _ & H);
    [reflexivity|].
  destruct H as [H1 H2].
  - intros r Hr. unfold sample in Hr. apply elem_of_load_data in Hr.
    destruct Hr as (r0 & -> & Hr0). unfold sample_raw in Hr0.
    repeat (apply elem_of_cons in Hr0; destruct Hr0 as [->|Hr0]); try (by vm_compute).
    by apply elem_of_nil in Hr0.
  - split; [exact H1|]. by rewrite H2.
Defined.

(** ** hour_stats *)

Global Instance key_le_total : Total key_le.
Proof. intros [x|] [y|]; simpl; auto. lia. Qed.

Global Instance key_le_trans : Transitive key_le.
Proof. intros [x|] [y|] [z|]; simpl; auto; try done. lia. Qed.

Global Instance hour_le_total : Total hour_le.
Proof. intros x y. apply (total key_le). Qed.

Global Instance hour_le_trans : Transitive hour_le.
Proof. intros x y z. apply (transitivity (R:=key_le)). Qed.

Lemma key_le_lt (a b : option Z) : key_le a b → a ≠ b → key_lt a b.
Proof.
  destruct a as [x|], b as [y|]; simpl; try done.
  intros ? Hne. assert (x ≠ y) by congruence. lia.
Qed.

(** A duplicate-free list in ascending order is in strictly ascending order. *)
Lemma StronglySorted_key_lt (l : list (option Z)) :
  StronglySorted key_le l → NoDup l → StronglySorted key_lt l.
Proof.
  induction 1 as [|a l Hs IH Hall]; intros Hnd; [constructor|].
  apply NoDup_cons in Hnd as [Hnotin Hnd]. constructor; [auto|].
  apply Forall_forall. intros b Hb.
  apply key_le_lt; [by eapply Forall_forall in Hall|].
  by intros ->.
Qed.

(** Each group of [group_by] holds, in frame order, the rows of its key. *)
Lemma group_by_DepHour_lookup (df : list Normalized) (k : option Z) :
  group_by_DepHour df !! k
  = match filter (λ r, DepHour r = k) df with
    | [] => None
    | g => Some g
    end.
Proof.
  induction df as [|r df IH]; simpl; [done|].
  fold (group_by_DepHour df). rewrite filter_cons.
  destruct (decide (DepHour r = k)) as [->|Hne].
  - rewrite lookup_insert_eq, IH.
    by destruct (filter _ df).
  - by rewrite lookup_insert_ne.
Qed.

Lemma group_by_DepHour_Some (df g : list Normalized) (k : option Z) :
  group_by_DepHour df !! k = Some g ↔
  g = filter (λ r, DepHour r = k) df ∧ g ≠ [].
Proof.
  rewrite group_by_DepHour_lookup.
  destruct (filter (λ r, DepHour r = k) df) as [|r g'].
  - split; [done|]. by intros [-> ?].
  - split; [by intros [= <-]|]. by intros [-> _].
Qed.

Lemma elem_of_hour_stats (pl_round1 : Qc → Qc) (fdf : list Normalized) (h : Hour.t) :
  h ∈ hour_stats pl_round1 fdf ↔
  ∃ k g, g = filter (λ r, DepHour r = k) fdf ∧ g ≠ [] ∧
         h = add_on_time_pct pl_round1 (agg_group (k, g)).
Proof.
  unfold hour_stats. rewrite merge_sort_Permutation, <- list_fmap_compose.
  rewrite list_elem_of_fmap. split.
  - intros ([k g] & -> & Hkg). apply elem_of_map_to_list in Hkg.
    apply group_by_DepHour_Some in Hkg as [Hg ?]. by exists k, g.
  - intros (k & g & Hg & Hne & ->). exists (k, g). split; [done|].
    by apply elem_of_map_to_list, group_by_DepHour_Some.
Qed.

Lemma hour_stats_keys (pl_round1 : Qc → Qc) (fdf : list Normalized) :
  Hour.DepHour <$> hour_stats pl_round1 fdf ≡ₚ (map_to_list (group_by_DepHour fdf)).*1.
Proof.
  unfold hour_stats. rewrite merge_sort_Permutation, <- !list_fmap_compose.
  by erewrite list_fmap_ext.
Qed.

(** C10: the bucket keys of the hourly aggregate are strictly ascending in
    output order (a null key, if any, first), hence without duplicates. *)
Theorem hour_stats_strictly_ascending (pl_round1 : Qc → Qc) (fdf : list Normalized) :
  StronglySorted key_lt (Hour.DepHour <$> hour_stats pl_round1 fdf) ∧
  NoDup (Hour.DepHour <$> hour_stats pl_round1 fdf).
Proof.
  assert (NoDup (Hour.DepHour <$> hour_stats pl_round1 fdf)) as Hnd.
  { rewrite hour_stats_keys. apply NoDup_fst_map_to_list. }
  split; [|done]. apply StronglySorted_key_lt; [|done].
  apply StronglySorted_fmap with (R1 := hour_le); [done|].
  apply (StronglySorted_merge_sort hour_le).
Qed.

(** On rows produced by [load_data] the [OnTime] column holds 1, 0 or null:
    its non-null cells sum to the number of on-time rows and are as many as
    the rows with a delay. *)
Lemma on_time_column_counts (g : list Normalized) :
  Forall (λ r : Normalized,
            OnTime r = (λ d, Z.b2z (bool_decide (d ≤ 15))) <$> ArrDelayMinutes r) g →
  Zsum (present (col (λ r : Normalized, OnTime r) g))
  = Z.of_nat (length (filter (λ r : Normalized, OnTime r = Some 1) g)) ∧
  length (present (col (λ r : Normalized, OnTime r) g))
  = length (filter (λ r : Normalized, is_Some (ArrDelayMinutes r)) g).
Proof.
  unfold present, col.
  induction 1 as [|r g Hr _ [IH1 IH2]]; [done|].
  rewrite !filter_cons. csimpl. rewrite Hr.
  destruct (ArrDelayMinutes r) as [d|]; simpl.
  - rewrite IH1, IH2. split; [|done].
    case_bool_decide; simpl; repeat case_decide; simpl; try done; lia.
  - rewrite IH1, IH2. split; [|done]. by repeat case_decide.
Qed.

Lemma filter_df_load_data_rows (sel : Selection) (df : list FlightRecord) (g : list Normalized) :
  g ⊆ filter_df sel (load_data df) →
  Forall (λ r : Normalized,
            OnTime r = (λ d, Z.b2z (bool_decide (d ≤ 15))) <$> ArrDelayMinutes r) g.
Proof.
  intros Hg. apply Forall_forall. intros r Hr.
  apply Hg, filter_df_subseteq, elem_of_load_data in Hr as (r0 & -> & _).
  done.
Qed.

(** What a row of [hour_stats] holds, in terms of the rows of its bucket:
    the on-time rate is taken over the rows whose delay is present. *)
Lemma hour_stats_row (pl_round1 : Qc → Qc)
    (sel : Selection) (df : list FlightRecord) (h : Hour.t) :
  let fdf := filter_df sel (load_data df) in
  h ∈ hour_stats pl_round1 fdf →
  let b := filter (λ r : Normalized, DepHour r = Hour.DepHour h) fdf in
  let on_time := length (filter (λ r : Normalized, OnTime r = Some 1) b) in
  let with_delay :=
    length (filter (λ r : Normalized, is_Some (ArrDelayMinutes r)) b) in
  b ≠ [] ∧
  Hour.flights_n h = length b ∧
  Hour.on_time_pct h
  = (if decide (with_delay = 0%nat) then None
     else Some (pl_round1 (Z2Qc (Z.of_nat on_time) / Z2Qc (Z.of_nat with_delay)
                           * Z2Qc 100)%Qc)) ∧
  Hour.avg_arr_delay h
  = mean_of (present (col (λ r : Normalized, ArrDelayMinutes r) b)).
Proof.
  intros fdf (k & g & Hg & Hne & ->)%elem_of_hour_stats. simpl. rewrite <- Hg.
  assert (Forall (λ r : Normalized,
            OnTime r = (λ d, Z.b2z (bool_decide (d ≤ 15))) <$> ArrDelayMinutes r) g)
    as Hrows.
  { apply (filter_df_load_data_rows sel df). fold fdf. rewrite Hg.
    intros r [_ ?]%list_elem_of_filter. done. }
  apply on_time_column_counts in Hrows as [Hsum Hlen].
  rewrite !Series_mean_present.
  split_and!; [done | done | | reflexivity].
  unfold mean_of. rewrite <- Hsum. clear Hsum. revert Hlen.
  destruct (present (col (λ r : Normalized, OnTime r) g)); simpl; intros <-; done.
Qed.

Lemma filter_all {A : Type} (P : A → Prop) `{∀ x, Decision (P x)} (l : list A) :
  (∀ x, x ∈ l → P x) → filter P l = l.
Proof.
  induction l as [|x l IH]; intros Hl; [done|].
  rewrite filter_cons_True by (apply Hl; left).
  f_equal. apply IH. intros y Hy. apply Hl. by right.
Qed.

(** C6 (as amended): the hourly aggregate has one row per departure-hour key
    of the filtered subset; its flight count is the number of rows of the
    bucket; when every row of the bucket has an arrival delay, its on-time
    percentage is (on-time rows / bucket rows) * 100 rounded to one decimal;
    its average arrival delay is the mean of the delays present in the bucket
    (null when there is none), not rounded. *)
Theorem hour_stats_per_bucket (pl_round1 : Qc → Qc)
    (sel : Selection) (df : list FlightRecord) :
  let fdf := filter_df sel (load_data df) in
  (∀ r : Normalized, r ∈ fdf →
     ∃ h, h ∈ hour_stats pl_round1 fdf ∧ Hour.DepHour h = DepHour r) ∧
  (∀ h : Hour.t, h ∈ hour_stats pl_round1 fdf →
     let b := filter (λ r : Normalized, DepHour r = Hour.DepHour h) fdf in
     let on_time := length (filter (λ r : Normalized, OnTime r = Some 1) b) in
     let delays := present (col (λ r : Normalized, ArrDelayMinutes r) b) in
     b ≠ [] ∧
     Hour.flights_n h = length b ∧
     ((∀ r : Normalized, r ∈ b → is_Some (ArrDelayMinutes r)) →
      Hour.on_time_pct h
      = Some (pl_round1 (Z2Qc (Z.of_nat on_time) / Z2Qc (Z.of_nat (length b))
                         * Z2Qc 100)%Qc)) ∧
     Hour.avg_arr_delay h
     = match delays with
       | [] => None
       | _ => Some (Z2Qc (Zsum delays) / Z2Qc (Z.of_nat (length delays)))%Qc
       end).
Proof.
  intros fdf. split.
  - intros r Hr.
    exists (add_on_time_pct pl_round1
              (agg_group (DepHour r, filter (λ r0 : Normalized, DepHour r0 = DepHour r) fdf))).
    split; [|done]. apply elem_of_hour_stats.
    eexists _, _. split_and!; [done| |done].
    intros Hnil. by apply (filter_nil_not_elem_of _ _ r) in Hnil.
  - intros h Hh.
    destruct (hour_stats_row pl_round1 sel df h Hh) as (Hne & Hn & Hpct & Havg).
    fold fdf in Hne, Hn, Hpct, Havg. simpl.
    split_and!; [done | done | | by rewrite Havg].
    intros Hall. rewrite Hpct, (filter_all _ _ Hall). clear Hpct.
    case_decide as H0; [|done].
    by apply length_zero_iff_nil in H0.
Qed.

Lemma hour_stats_per_bucket_witness :
  let fdf := filter_df JFK_to_LAX (load_data same_hour_raw) in
  ∃ h, h ∈ hour_stats round1_half_even fdf ∧
       Hour.DepHour h = Some 8 ∧
       Hour.flights_n h = 3%nat ∧
       Hour.on_time_pct h = Some (Q2Qc (667 # 10)) ∧
       Hour.avg_arr_delay h = Some (Q2Qc (25 # 3)).
Proof.
  intros fdf.
  destruct (hour_stats_per_bucket round1_half_even JFK_to_LAX same_hour_raw)
    as [Hex Hall].
  destruct (Hex (normalize_row (sample_row "AA" 101 "JFK" "LAX" (Some 800) (Some 5) false)))
    as (h & Hh & Hk).
  { vm_compute. left. }
  exists h. split; [exact Hh|].
  pose proof (Hall h Hh) as Hrow. simpl in Hrow. rewrite Hk in Hrow.
  destruct Hrow as (_ & Hn & Hpct & Havg).
  rewrite Hk, Hn, Hpct, Havg; clear.
  - split_and!; [reflexivity | reflexivity | |]; vm_compute; qc_compare.
  - intros r Hr. vm_compute in Hr.
    repeat (apply elem_of_cons in Hr; destruct Hr as [->|Hr]); try (by eexists).
    by apply elem_of_nil in Hr.
Defined.

(** One bucket holding delays 5, 20, null and 0: two of its four rows are on
    time, so on-time rows over bucket rows is 50.0, and the rounded mean delay
    is 8.3; the pipeline reports 66.7 (two of the three rows with a delay) and
    the unrounded mean 25/3. *)
Lemma hour_stats_counterexample :
  ∃ h, hour_stats round1_half_even same_hour = [h] ∧
       Hour.DepHour h = Some 8 ∧
       Hour.flights_n h = 4%nat ∧
       length (filter (λ r : Normalized, OnTime r = Some 1) same_hour) = 2%nat ∧
       Hour.on_time_pct h = Some (Q2Qc (667 # 10)) ∧
       Hour.on_time_pct h ≠ Some (round1_half_even (Z2Qc 100 * Z2Qc 2 / Z2Qc 4)%Qc) ∧
       Hour.avg_arr_delay h = Some (Q2Qc (25 # 3)) ∧
       Hour.avg_arr_delay h ≠ Some (round1_half_even (Q2Qc (25 # 3))).
Proof.
  eexists. split; [vm_compute; reflexivity|]. simpl.
  split_and!; qc_compare.
Qed.

(** ** The scenario of four flights *)

(** Delays 5, 20, null, 0 with one cancellation: n = 4, on-time 50.0 (the
    null delay counts as not on time in the KPI), average delay 8.3,
    cancellation rate 25.0. *)
Example compute_metrics_scenario :
  compute_metrics round1_half_even sample
  = Metrics.mk 4 (Some (Z2Qc 50)) (Some (Q2Qc (83 # 10))) (Some (Z2Qc 25)).
Proof. vm_compute. f_equal; qc_compare. Qed.

(** Its hour buckets: the row without departure time first, then 8 and 15. *)
Example hour_stats_scenario :
  Hour.DepHour <$> hour_stats round1_half_even sample = [None; Some 8; Some 15] ∧
  Hour.flights_n <$> hour_stats round1_half_even sample = [1; 2; 1]%nat.
Proof. split; vm_compute; reflexivity. Qed.

(** * Further properties of the dashboard *)

(** ** filter_df, all modes *)

Lemma frame_filter_eq {R A : Type} `{EqDecision A}
    (f : R → option A) (a : A) (df : list R) :
  frame_filter df (eq_lit (col f df) a) = filter (λ r, f r = Some a) df.
Proof.
  unfold eq_lit, col. rewrite <- list_fmap_compose, frame_filter_fmap.
  apply list_filter_iff. intros r. simpl. apply eq_lit_true.
Qed.

(** Whatever the mode, [filter_df] keeps the rows passing the row test of
    that mode. *)
Lemma filter_df_selects (sel : Selection) (df : list Normalized) :
  filter_df sel df = filter (selects sel) df.
Proof.
  unfold filter_df.
  assert (∀ P Q : Normalized → Prop, ∀ (HP : ∀ r, Decision (P r)) (HQ : ∀ r, Decision (Q r)),
            (∀ r, P r ↔ Q r) → filter P df = filter Q df) as Hext.
  { intros. by apply list_filter_iff. }
  repeat case_decide.
  - rewrite (frame_filter_eq (λ r : Normalized, Origin r)).
    apply Hext. intros r. unfold selects. by rewrite decide_True.
  - rewrite (frame_filter_and_eq (λ r : Normalized, Origin r) (λ r : Normalized, Dest r)).
    apply Hext. intros r. unfold selects.
    by rewrite decide_False, decide_True.
  - rewrite (frame_filter_and_eq (λ r : Normalized, Origin r)
               (λ r : Normalized, Operating_Airline r)).
    apply Hext. intros r. unfold selects.
    by rewrite decide_False, decide_False, decide_True.
  - unfold cast_Utf8, col at 2. rewrite <- list_fmap_compose.
    etrans; [apply (frame_filter_and_eq (λ r : Normalized, Operating_Airline r)
               (λ r : Normalized, pretty <$> Flight_Number_Operating_Airline r))|].
    apply Hext. intros r. unfold selects.
    by rewrite decide_False, decide_False, decide_False, decide_True.
  - symmetry. apply filter_all. intros r _. unfold selects.
    by rewrite decide_False, decide_False, decide_False, decide_False.
Qed.

(** X1: the three origin-based views.  "airport" keeps exactly the rows whose
    origin is the chosen one; "route" those whose origin and destination are
    the chosen ones; "airline_at_airport" those whose origin and airline are
    the chosen ones; always in table order, and a row whose origin cell is
    null is kept by none of them. *)
Theorem filter_df_origin_modes (sel : Selection) (df : list Normalized) :
  (mode sel = "airport" →
   filter_df sel df = filter (λ r : Normalized, Origin r = Some (orig sel)) df) ∧
  (mode sel = "route" →
   filter_df sel df
   = filter (λ r : Normalized,
               Origin r = Some (orig sel) ∧ Dest r = Some (dest sel)) df) ∧
  (mode sel = "airline_at_airport" →
   filter_df sel df
   = filter (λ r : Normalized,
               Origin r = Some (orig sel) ∧ Operating_Airline r = Some (carrier sel)) df) ∧
  (mode sel = "airport" ∨ mode sel = "route" ∨ mode sel = "airline_at_airport" →
   ∀ r : Normalized, r ∈ filter_df sel df → Origin r = Some (orig sel)).
Proof.
  rewrite filter_df_selects. split_and!.
  - intros Hm. apply list_filter_iff. intros r. unfold selects. by rewrite Hm.
  - intros Hm. apply list_filter_iff. intros r. unfold selects. by rewrite Hm.
  - intros Hm. apply list_filter_iff. intros r. unfold selects. by rewrite Hm.
  - intros Hm r [Hr _]%list_elem_of_filter. unfold selects in Hr.
    destruct Hm as [Hm|[Hm|Hm]]; rewrite Hm in Hr; simpl in Hr; tauto.
Qed.

Lemma filter_df_origin_modes_witness :
  filter_df JFK_to_LAX same_hour
  = filter (λ r : Normalized, Origin r = Some "JFK" ∧ Dest r = Some "LAX") same_hour ∧
  length (filter_df JFK_to_LAX same_hour) = 3%nat.
Proof.
  destruct (filter_df_origin_modes JFK_to_LAX same_hour) as (_ & H & _).
  split; [by apply H|reflexivity].
Defined.

(** X2: the "route" and "airline_at_airport" views select within the
    "airport" view of the same origin: they are that view filtered further
    by destination, respectively by airline. *)
Theorem filter_df_within_airport (sel : Selection) (df : list Normalized) :
  (mode sel = "route" →
   filter_df sel df
   = filter (λ r : Normalized, Dest r = Some (dest sel))
       (filter_df (with_mode "airport" sel) df)) ∧
  (mode sel = "airline_at_airport" →
   filter_df sel df
   = filter (λ r : Normalized, Operating_Airline r = Some (carrier sel))
       (filter_df (with_mode "airport" sel) df)).
Proof.
  rewrite !filter_df_selects. split; intros Hm.
  - rewrite list_filter_filter. apply list_filter_iff. intros r.
    unfold selects. rewrite Hm. simpl. tauto.
  - rewrite list_filter_filter. apply list_filter_iff. intros r.
    unfold selects. rewrite Hm. simpl. tauto.
Qed.

Lemma filter_df_within_airport_witness :
  filter_df JFK_to_LAX same_hour
  = filter (λ r : Normalized, Dest r = Some "LAX")
      (filter_df (with_mode "airport" JFK_to_LAX) same_hour) ∧
  length (filter_df (with_mode "airport" JFK_to_LAX) same_hour) = 4%nat.
Proof.
  destruct (filter_df_within_airport JFK_to_LAX same_hour) as [H _].
  split; [by apply H|reflexivity].
Defined.

(** X3: filtering is idempotent: applying the same selection to its own
    result changes nothing, in every mode. *)
Theorem filter_df_idempotent (sel : Selection) (df : list Normalized) :
  filter_df sel (filter_df sel df) = filter_df sel df.
Proof.
  rewrite !filter_df_selects, list_filter_filter.
  apply list_filter_iff. tauto.
Qed.

(** X4: the result of [filter_df] is a sub-list of the table: rows are only
    dropped, their order is kept, and the result is never longer than the
    table. *)
Theorem filter_df_sublist (sel : Selection) (df : list Normalized) :
  filter_df sel df `sublist_of` df ∧
  (length (filter_df sel df) ≤ length df)%nat.
Proof.
  rewrite filter_df_selects. split.
  - apply sublist_filter.
  - apply length_filter.
Qed.

(** ** compute_metrics: the two rates *)

Lemma filter_df_load_data_normal (sel : Selection) (df : list FlightRecord) (r : Normalized) :
  r ∈ filter_df sel (load_data df) → r = normalize_row r.
Proof.
  intros Hr. apply filter_df_subseteq, elem_of_load_data in Hr as (r0 & -> & _).
  done.
Qed.

(** On rows produced by [load_data] the non-null [OnTime] cells sum to the
    number of flights that arrived on time. *)
Lemma on_time_sum_count (g : list Normalized) :
  (∀ r : Normalized, r ∈ g → r = normalize_row r) →
  Series_sum (col (λ r : Normalized, OnTime r) g)
  = Z.of_nat (length (filter (λ r : Normalized, arrived_on_time r) g)).
Proof.
  rewrite Series_sum_present. unfold present, col.
  induction g as [|r g IH]; intros Hg; [done|].
  specialize (IH (λ r' Hr', Hg r' (list_elem_of_further _ _ _ Hr'))).
  pose proof (Hg r (list_elem_of_here _ _)) as Hr.
  apply (f_equal (λ x : Normalized, OnTime x)) in Hr. simpl in Hr.
  rewrite filter_cons. csimpl. rewrite Hr. unfold Zsum in *.
  destruct (decide (arrived_on_time r)) as [Hd|Hd]; unfold arrived_on_time in Hd;
    destruct (ArrDelayMinutes r) as [d|]; simpl; try done.
  - rewrite IH, bool_decide_eq_true_2 by done. simpl. lia.
  - rewrite IH, bool_decide_eq_false_2 by done. simpl. lia.
Qed.

Lemma cancelled_sum_count (g : list Normalized) :
  (∀ r : Normalized, r ∈ g → r = normalize_row r) →
  Series_sum (col (λ r : Normalized, CancelledFlag r) g)
  = Z.of_nat (length (filter (λ r : Normalized, Cancelled r = Some true) g)).
Proof.
  rewrite Series_sum_present. unfold present, col.
  induction g as [|r g IH]; intros Hg; [done|].
  specialize (IH (λ r' Hr', Hg r' (list_elem_of_further _ _ _ Hr'))).
  pose proof (Hg r (list_elem_of_here _ _)) as Hr.
  apply (f_equal (λ x : Normalized, CancelledFlag x)) in Hr. simpl in Hr.
  rewrite filter_cons. csimpl. rewrite Hr. unfold Zsum in *.
  case_decide as Hc.
  - rewrite Hc. simpl. rewrite IH. lia.
  - destruct (Cancelled r) as [[]|]; simpl; try done; rewrite IH; lia.
Qed.

(** X5: the on-time KPI of a non-empty selection is the rounding of
    (flights arrived on time / all selected flights) * 100.  A flight without
    arrival delay is not on time but counts among the selected flights. *)
Theorem kpi_on_time_pct (py_round1 : Qc → Qc)
    (sel : Selection) (df : list FlightRecord) :
  let fdf := filter_df sel (load_data df) in
  fdf ≠ [] →
  Metrics.on_time_pct (compute_metrics py_round1 fdf)
  = Some (py_round1
            (Z2Qc (Z.of_nat (length (filter (λ r : Normalized, arrived_on_time r) fdf)))
             / Z2Qc (Z.of_nat (length fdf)) * Z2Qc 100)%Qc).
Proof.
  intros fdf Hne. unfold compute_metrics.
  case_decide as Hn; [by destruct fdf|]. simpl.
  rewrite on_time_sum_count; [done|].
  intros r. apply filter_df_load_data_normal.
Qed.

Lemma kpi_on_time_pct_witness :
  Metrics.on_time_pct
    (compute_metrics round1_half_even (filter_df JFK_to_LAX (load_data same_hour_raw)))
  = Some (Q2Qc (667 # 10)).
Proof.
  rewrite (kpi_on_time_pct round1_half_even JFK_to_LAX same_hour_raw) by done.
  vm_compute. qc_compare.
Defined.

(** X6: the cancellation KPI of a non-empty selection is the rounding of
    (flights flagged cancelled / all selected flights) * 100; a null flag
    counts as not cancelled. *)
Theorem kpi_cancel_rate (py_round1 : Qc → Qc)
    (sel : Selection) (df : list FlightRecord) :
  let fdf := filter_df sel (load_data df) in
  fdf ≠ [] →
  Metrics.cancel_rate (compute_metrics py_round1 fdf)
  = Some (py_round1
            (Z2Qc (Z.of_nat (length (filter (λ r : Normalized, Cancelled r = Some true) fdf)))
             / Z2Qc (Z.of_nat (length fdf)) * Z2Qc 100)%Qc).
Proof.
  intros fdf Hne. unfold compute_metrics.
  case_decide as Hn; [by destruct fdf|]. simpl.
  rewrite cancelled_sum_count; [done|].
  intros r. apply filter_df_load_data_normal.
Qed.

Lemma kpi_cancel_rate_witness :
  Metrics.cancel_rate
    (compute_metrics round1_half_even
       (filter_df (with_mode "airport" JFK_to_LAX) (load_data same_hour_raw)))
  = Some (Z2Qc 25).
Proof.
  rewrite (kpi_cancel_rate round1_half_even (with_mode "airport" JFK_to_LAX) same_hour_raw)
    by done.
  vm_compute. qc_compare.
Defined.

(** A column has a null mean exactly when all its cells are null. *)
Lemma Series_mean_None {R : Type} (f : R → option Z) (df : list R) :
  Series_mean (col f df) = None ↔ ∀ r, r ∈ df → f r = None.
Proof.
  rewrite Series_mean_present. unfold mean_of.
  assert (present (col f df) = [] ↔ ∀ r, r ∈ df → f r = None) as <-.
  { rewrite present_nil_iff. unfold col. split.
    - intros Ho r Hr. apply Ho, list_elem_of_fmap. by exists r.
    - intros Hr o (r & -> & ?)%list_elem_of_fmap. auto. }
  by destruct (present _).
Qed.

(** X7: which KPIs are null.  [n] is always the row count; the on-time and
    cancellation rates are null exactly for the empty subset; the average
    delay is null exactly when no row of the subset has a delay. *)
Theorem compute_metrics_null_iff (py_round1 : Qc → Qc) (fdf : list Normalized) :
  let m := compute_metrics py_round1 fdf in
  Metrics.n m = length fdf ∧
  (Metrics.on_time_pct m = None ↔ fdf = []) ∧
  (Metrics.cancel_rate m = None ↔ fdf = []) ∧
  (Metrics.avg_delay m = None ↔ ∀ r : Normalized, r ∈ fdf → ArrDelayMinutes r = None).
Proof.
  unfold compute_metrics. case_decide as Hn; simpl.
  - destruct fdf; [|done]. split_and!; try done.
    split; [|done]. intros _ r Hr. by apply elem_of_nil in Hr.
  - assert (fdf ≠ []) by (by destruct fdf).
    split_and!; [done| split; done | split; done |].
    rewrite fmap_None. apply (Series_mean_None (λ r : Normalized, ArrDelayMinutes r)).
Qed.

(** ** compute_metrics does not depend on the order of the rows *)

Lemma Zsum_Permutation (l l' : list Z) : l ≡ₚ l' → Zsum l = Zsum l'.
Proof. unfold Zsum. induction 1; simpl; lia. Qed.

Lemma mean_of_Permutation (l l' : list Z) : l ≡ₚ l' → mean_of l = mean_of l'.
Proof.
  intros Hp. unfold mean_of.
  destruct l as [|x l].
  - by apply Permutation_nil_l in Hp as <-.
  - destruct l' as [|x' l']; [by apply Permutation_nil_r in Hp|].
    by rewrite (Zsum_Permutation _ _ Hp), Hp.
Qed.

Lemma Series_sum_Permutation (s s' : Series Z) :
  s ≡ₚ s' → Series_sum s = Series_sum s'.
Proof.
  intros Hp. rewrite !Series_sum_present. apply Zsum_Permutation.
  unfold present. by rewrite Hp.
Qed.

Lemma Series_mean_Permutation (s s' : Series Z) :
  s ≡ₚ s' → Series_mean s = Series_mean s'.
Proof.
  intros Hp. rewrite !Series_mean_present. apply mean_of_Permutation.
  unfold present. by rewrite Hp.
Qed.

(** X8: the KPIs depend on which rows are selected, not on their order: two
    subsets that are rearrangements of each other give the same metrics. *)
Theorem compute_metrics_Permutation (py_round1 : Qc → Qc) (fdf fdf' : list Normalized) :
  fdf ≡ₚ fdf' → compute_metrics py_round1 fdf = compute_metrics py_round1 fdf'.
Proof.
  intros Hp. unfold compute_metrics.
  assert (length fdf = length fdf') as -> by (by rewrite Hp).
  case_decide; [done|].
  rewrite (Series_sum_Permutation (col (λ r : Normalized, OnTime r) fdf)
             (col (λ r : Normalized, OnTime r) fdf')) by (unfold col; by rewrite Hp).
  rewrite (Series_sum_Permutation (col (λ r : Normalized, CancelledFlag r) fdf)
             (col (λ r : Normalized, CancelledFlag r) fdf')) by (unfold col; by rewrite Hp).
  rewrite (Series_mean_Permutation (col (λ r : Normalized, ArrDelayMinutes r) fdf)
             (col (λ r : Normalized, ArrDelayMinutes r) fdf')) by (unfold col; by rewrite Hp).
  done.
Qed.

Lemma compute_metrics_Permutation_witness :
  compute_metrics round1_half_even sample
  = compute_metrics round1_half_even (reverse sample).
Proof.
  apply compute_metrics_Permutation. symmetry. apply reverse_Permutation.
Defined.

(** ** KPI cards *)

Lemma append_percent_not_dash (s : string) : String.append s "%" ≠ "-".
Proof. destruct s as [|c [|c' s]]; discriminate. Qed.

(** X9: what the four cards show.  The first shows the row count.  The
    on-time and cancellation cards show the placeholder "-" exactly when no
    row is selected; the delay card shows "-" exactly when no selected row
    has a delay. *)
Theorem kpi_cards_placeholder (fmt : Qc → string) (py_round1 : Qc → Qc)
    (fdf : list Normalized) :
  let cards := kpi_cards fmt (compute_metrics py_round1 fdf) in
  Cards.flights cards = KpiInt (length fdf) ∧
  (Cards.on_time cards = KpiText "-" ↔ fdf = []) ∧
  (Cards.cancel cards = KpiText "-" ↔ fdf = []) ∧
  (Cards.avg_arr_delay cards = KpiText "-" ↔
   ∀ r : Normalized, r ∈ fdf → ArrDelayMinutes r = None).
Proof.
  unfold kpi_cards, compute_metrics. case_decide as Hn; simpl.
  - destruct fdf; [|done]. split_and!; try done.
    split; [|done]. intros _ r Hr. by apply elem_of_nil in Hr.
  - assert (fdf ≠ []) by (by destruct fdf).
    split_and!; [done| | |].
    + split; [|done]. intros [= H']. by apply append_percent_not_dash in H'.
    + split; [|done]. intros [= H']. by apply append_percent_not_dash in H'.
    + rewrite <- (Series_mean_None (λ r : Normalized, ArrDelayMinutes r)).
      by destruct (Series_mean _).
Qed.

(** ** hour_stats: the buckets partition the subset *)

(** Taken together, the groups of [group_by] hold every row exactly once. *)
Lemma group_by_DepHour_join (df : list Normalized) :
  mjoin ((map_to_list (group_by_DepHour df)).*2) ≡ₚ df.
Proof.
  induction df as [|r df IH]; simpl.
  { by rewrite map_to_list_empty. }
  fold (group_by_DepHour df).
  destruct (group_by_DepHour df !! DepHour r) as [g|] eqn:Hk; simpl.
  - rewrite <- insert_delete_eq.
    rewrite map_to_list_insert by apply lookup_delete_eq.
    rewrite <- (map_to_list_delete _ _ _ Hk) in IH. simpl in *.
    by rewrite IH.
  - rewrite map_to_list_insert by done. simpl. by rewrite IH.
Qed.

Lemma hour_stats_flights_n (pl_round1 : Qc → Qc) (fdf : list Normalized) :
  Hour.flights_n <$> hour_stats pl_round1 fdf
  ≡ₚ length <$> (map_to_list (group_by_DepHour fdf)).*2.
Proof.
  unfold hour_stats. rewrite merge_sort_Permutation, <- !list_fmap_compose.
  by erewrite list_fmap_ext.
Qed.

Lemma hour_stats_total (pl_round1 : Qc → Qc) (fdf : list Normalized) :
  sum_list (Hour.flights_n <$> hour_stats pl_round1 fdf) = length fdf.
Proof.
  rewrite hour_stats_flights_n, <- length_join.
  by rewrite group_by_DepHour_join.
Qed.

Lemma hour_stats_flights_n_pos (pl_round1 : Qc → Qc) (fdf : list Normalized) (h : Hour.t) :
  h ∈ hour_stats pl_round1 fdf → (1 ≤ Hour.flights_n h)%nat.
Proof.
  intros (k & g & _ & Hne & ->)%elem_of_hour_stats. simpl.
  destruct g; [done|simpl; lia].
Qed.

Lemma length_le_sum_list {A : Type} (f : A → nat) (l : list A) :
  Forall (λ x, (1 ≤ f x)%nat) l → (length l ≤ sum_list (f <$> l))%nat.
Proof. induction 1; csimpl; lia. Qed.

(** X10: the hour buckets partition the subset: every bucket has at least
    one flight, the flight counts of the buckets add up to the number of
    selected rows, and there are at most as many buckets as rows. *)
Theorem hour_stats_partition (pl_round1 : Qc → Qc) (fdf : list Normalized) :
  sum_list (Hour.flights_n <$> hour_stats pl_round1 fdf) = length fdf ∧
  Forall (λ h, (1 ≤ Hour.flights_n h)%nat) (hour_stats pl_round1 fdf) ∧
  (length (hour_stats pl_round1 fdf) ≤ length fdf)%nat.
Proof.
  assert (Forall (λ h, (1 ≤ Hour.flights_n h)%nat) (hour_stats pl_round1 fdf)) as Hpos.
  { apply Forall_forall. apply hour_stats_flights_n_pos. }
  split_and!; [apply hour_stats_total | done |].
  rewrite <- (hour_stats_total pl_round1 fdf).
  by apply length_le_sum_list.
Qed.

(** X11: the charts are drawn exactly when some row is selected, and then
    from at least one bucket; with no row selected the page shows the
    "no flights match" notice instead. *)
Theorem charts_shown_iff (pl_round1 : Qc → Qc) (fdf : list Normalized) :
  (charts pl_round1 fdf = NoMatchInfo ↔ fdf = []) ∧
  (fdf ≠ [] →
   charts pl_round1 fdf = ChartsShown (hour_stats pl_round1 fdf) ∧
   hour_stats pl_round1 fdf ≠ []).
Proof.
  unfold charts. split.
  - case_decide as Hn.
    + split; [done|]. intros ->. simpl in Hn. lia.
    + split; [|done]. intros _. destruct fdf; [done|simpl in Hn; lia].
  - intros Hne. case_decide as Hn; [|destruct fdf; [done|simpl in Hn; lia]].
    split; [done|]. intros Hnil.
    pose proof (hour_stats_total pl_round1 fdf) as Htot.
    rewrite Hnil in Htot. simpl in Htot. lia.
Qed.

Lemma charts_shown_iff_witness :
  charts round1_half_even sample = ChartsShown (hour_stats round1_half_even sample) ∧
  length (hour_stats round1_half_even sample) = 3%nat.
Proof.
  destruct (charts_shown_iff round1_half_even sample) as [_ H].
  destruct H as [H _]; [done|]. split; [exact H|reflexivity].
Defined.

(** ** hour_stats: rates are fractions *)

Lemma Z2Qc_Qc_of_Z (z : Z) : Z2Qc z = Qc_of_Z z.
Proof. apply Qc_is_canon. unfold Z2Qc. simpl. apply Qred_correct. Qed.

Lemma Z2Qc_frac_bounds (a b : Z) :
  0 ≤ a ≤ b → 0 < b → (0 ≤ Z2Qc a / Z2Qc b ≤ 1)%Qc.
Proof.
  intros [Ha Hab] Hb. rewrite !Z2Qc_Qc_of_Z.
  assert (0 < Qc_of_Z b)%Qc as Hb'.
  { rewrite <- Z2Qc_inj_0. apply (proj1 (Z2Qc_inj_lt 0 b)). exact Hb. }
  assert (0 ≤ / Qc_of_Z b)%Qc as Hinv by (by apply Qclt_le_weak, Qcinv_pos).
  unfold Qcdiv. split.
  - rewrite <- (Qcmult_0_l (/ Qc_of_Z b)).
    apply Qcmult_le_mono_nonneg_r; [done|].
    rewrite <- Z2Qc_inj_0. apply (proj1 (Z2Qc_inj_le 0 a)). exact Ha.
  - rewrite <- (Qcmult_inv_r (Qc_of_Z b)) by (by apply not_symmetry, Qclt_not_eq).
    apply Qcmult_le_mono_nonneg_r; [done|]. apply (proj1 (Z2Qc_inj_le a b)). exact Hab.
Qed.

Lemma Zsum_bits_bounds (l : list Z) :
  Forall (λ v, 0 ≤ v ≤ 1) l → 0 ≤ Zsum l ≤ Z.of_nat (length l).
Proof. unfold Zsum. induction 1; simpl; lia. Qed.

(** The mean of a column of 0/1 cells lies between 0 and 1. *)
Lemma Series_mean_bits_bounds (s : Series Z) (q : Qc) :
  Forall (λ o, ∀ v, o = Some v → 0 ≤ v ≤ 1) s →
  Series_mean s = Some q → (0 ≤ q ≤ 1)%Qc.
Proof.
  intros Hs. rewrite Series_mean_present.
  assert (Forall (λ v, 0 ≤ v ≤ 1) (present s)) as Hp.
  { unfold present. induction Hs as [|[v|] s Hv _ IH]; simpl; [done| |done].
    constructor; [by apply Hv|done]. }
  apply Zsum_bits_bounds in Hp. unfold mean_of.
  destruct (present s) as [|v l] eqn:Heq; [done|]. intros [= <-].
  apply Z2Qc_frac_bounds; [done|]. simpl length. lia.
Qed.

(** X12: in the hourly table of a selection of the loaded data, the on-time
    rate of a bucket, when it is not null, is a fraction between 0 and 1. *)
Theorem hour_on_time_rate_bounds (pl_round1 : Qc → Qc)
    (sel : Selection) (df : list FlightRecord) (h : Hour.t) (q : Qc) :
  h ∈ hour_stats pl_round1 (filter_df sel (load_data df)) →
  Hour.on_time_rate h = Some q →
  (0 ≤ q ≤ 1)%Qc.
Proof.
  intros (k & g & Hg & _ & ->)%elem_of_hour_stats. simpl.
  apply Series_mean_bits_bounds. unfold col. apply Forall_fmap, Forall_forall.
  intros r Hr v. simpl.
  assert (r = normalize_row r) as ->.
  { apply (filter_df_load_data_normal sel df). rewrite Hg in Hr.
    by apply list_elem_of_filter in Hr as [_ ?]. }
  simpl. destruct (ArrDelayMinutes r) as [d|]; simpl; [|done].
  intros [= <-]. by case_bool_decide.
Qed.

Lemma hour_on_time_rate_bounds_witness :
  ∃ h, hour_stats round1_half_even (filter_df JFK_to_LAX (load_data same_hour_raw)) = [h] ∧
       Hour.on_time_rate h = Some (Q2Qc (2 # 3)) ∧
       (0 ≤ Q2Qc (2 # 3) ≤ 1)%Qc.
Proof.
  eexists. split; [vm_compute; reflexivity|]. split; [qc_compare|].
  eapply (hour_on_time_rate_bounds round1_half_even JFK_to_LAX same_hour_raw).
  - vm_compute. left.
  - simpl. qc_compare.
Defined.

(** ** hour_stats does not depend on the order of the rows *)

Lemma hour_row_Permutation (pl_round1 : Qc → Qc) (k : option Z) (g g' : list Normalized) :
  g ≡ₚ g' →
  add_on_time_pct pl_round1 (agg_group (k, g))
  = add_on_time_pct pl_round1 (agg_group (k, g')).
Proof.
  intros Hp. unfold add_on_time_pct, agg_group. simpl.
  assert (length g = length g') as -> by (by rewrite Hp).
  rewrite (Series_mean_Permutation (col (λ r : Normalized, OnTime r) g)
             (col (λ r : Normalized, OnTime r) g')) by (unfold col; by rewrite Hp).
  rewrite (Series_mean_Permutation (col (λ r : Normalized, ArrDelayMinutes r) g)
             (col (λ r : Normalized, ArrDelayMinutes r) g')) by (unfold col; by rewrite Hp).
  done.
Qed.

Lemma elem_of_hour_stats_Permutation (pl_round1 : Qc → Qc)
    (fdf fdf' : list Normalized) (h : Hour.t) :
  fdf ≡ₚ fdf' → h ∈ hour_stats pl_round1 fdf → h ∈ hour_stats pl_round1 fdf'.
Proof.
  intros Hp (k & g & Hg & Hne & ->)%elem_of_hour_stats.
  apply elem_of_hour_stats.
  exists k, (filter (λ r, DepHour r = k) fdf'). split_and!; [done| |].
  - intros Hnil. apply Hne. rewrite Hg. apply Permutation_nil_r.
    by rewrite Hp, Hnil.
  - apply hour_row_Permutation. by rewrite Hg, Hp.
Qed.

Lemma key_le_antisym (a b : option Z) : key_le a b → key_le b a → a = b.
Proof. destruct a, b; simpl; try done. intros. f_equal. lia. Qed.

(** Two rows of [hour_stats] with the same key are the same row. *)
Lemma hour_stats_key_inj (pl_round1 : Qc → Qc) (fdf : list Normalized) (h1 h2 : Hour.t) :
  h1 ∈ hour_stats pl_round1 fdf → h2 ∈ hour_stats pl_round1 fdf →
  Hour.DepHour h1 = Hour.DepHour h2 → h1 = h2.
Proof.
  intros (k1 & g1 & -> & _ & ->)%elem_of_hour_stats
         (k2 & g2 & -> & _ & ->)%elem_of_hour_stats. simpl. by intros ->.
Qed.

(** X13: the hourly table depends on which rows are selected, not on their
    order: two subsets that are rearrangements of each other give the same
    table, row for row. *)
Theorem hour_stats_Permutation (pl_round1 : Qc → Qc) (fdf fdf' : list Normalized) :
  fdf ≡ₚ fdf' → hour_stats pl_round1 fdf = hour_stats pl_round1 fdf'.
Proof.
  intros Hp.
  assert (∀ l, NoDup (Hour.DepHour <$> hour_stats pl_round1 l)) as Hkeys.
  { intros l. rewrite hour_stats_keys. apply NoDup_fst_map_to_list. }
  apply (StronglySorted_unique_strong hour_le).
  - intros h1 h2 H1 H2 H12 H21.
    apply (hour_stats_key_inj pl_round1 fdf'); [|done|by apply key_le_antisym].
    by apply (elem_of_hour_stats_Permutation pl_round1 fdf).
  - apply (StronglySorted_merge_sort hour_le).
  - apply (StronglySorted_merge_sort hour_le).
  - apply NoDup_Permutation.
    + eapply NoDup_fmap_1, Hkeys.
    + eapply NoDup_fmap_1, Hkeys.
    + intros h. split; by apply elem_of_hour_stats_Permutation.
Qed.

Lemma hour_stats_Permutation_witness :
  hour_stats round1_half_even sample = hour_stats round1_half_even (reverse sample).
Proof.
  apply hour_stats_Permutation. symmetry. apply reverse_Permutation.
Defined.

(** ** Sidebar option lists *)

Lemma str_compare_le_trans (a b c : string) :
  String.compare a b ≠ Gt → String.compare b c ≠ Gt → String.compare a c ≠ Gt.
Proof.
  revert b c. induction a as [|x a IH]; intros [|y b] [|z c]; simpl; try done.
  unfold Ascii.compare.
  destruct (N.compare_spec (Ascii.N_of_ascii x) (Ascii.N_of_ascii y)) as [Hxy|Hxy|Hxy],
           (N.compare_spec (Ascii.N_of_ascii y) (Ascii.N_of_ascii z)) as [Hyz|Hyz|Hyz],
           (N.compare_spec (Ascii.N_of_ascii x) (Ascii.N_of_ascii z)) as [Hxz|Hxz|Hxz];
    try done; try lia.
  apply IH.
Qed.

Global Instance str_le_total : Total str_le.
Proof. intros a b. apply String.leb_total. Qed.

Global Instance str_le_trans : Transitive str_le.
Proof.
  intros a b c. unfold str_le, String.leb. intros Hab Hbc.
  pose proof (str_compare_le_trans a b c) as H.
  destruct (String.compare a b), (String.compare b c), (String.compare a c);
    try done; exfalso; by apply H.
Qed.

Lemma str_le_lt (a b : string) : str_le a b → a ≠ b → str_lt a b.
Proof.
  unfold str_le, str_lt, String.leb, String.ltb.
  destruct (String.compare a b) eqn:Hc; try done.
  intros _ Hne. by apply String.compare_eq_iff in Hc.
Qed.

Global Instance cell_le_total : Total cell_le.
Proof. intros [a|] [b|]; simpl; auto. apply (total str_le). Qed.

Global Instance cell_le_trans : Transitive cell_le.
Proof. intros [a|] [b|] [c|]; simpl; try done. apply (transitivity (R:=str_le)). Qed.

(** A duplicate-free list of strings in ascending order is strictly
    ascending. *)
Lemma StronglySorted_str_lt (l : list string) :
  StronglySorted cell_le (Some <$> l) → NoDup l → StronglySorted str_lt l.
Proof.
  induction l as [|a l IH]; csimpl; intros Hs Hnd; [constructor|].
  apply StronglySorted_cons in Hs as [Hall Hs].
  apply NoDup_cons in Hnd as [Hnotin Hnd]. constructor; [auto|].
  apply Forall_forall. intros b Hb. apply str_le_lt; [|by intros ->].
  rewrite Forall_fmap, Forall_forall in Hall. by apply (Hall b).
Qed.

(** On a duplicate-free list without null, [sorted] returns the same strings
    in strictly ascending order. *)
Lemma py_sorted_strings (l : list (option string)) :
  NoDup l → None ∉ l →
  ∃ l', py_sorted l = Ok (Some <$> l') ∧ Some <$> l' ≡ₚ l ∧ StronglySorted str_lt l'.
Proof.
  intros Hnd Hnone. unfold py_sorted.
  rewrite decide_False by (by intros [? _]).
  assert (∃ l', merge_sort cell_le l = Some <$> l') as [l' Hl'].
  { assert (None ∉ merge_sort cell_le l) as Hn by (by rewrite merge_sort_Permutation).
    revert Hn. generalize (merge_sort cell_le l). intros k.
    induction k as [|[a|] k IH]; intros Hk.
    - by exists [].
    - destruct IH as [k' ->]; [by intros ?; apply Hk; right|]. by exists (a :: k').
    - destruct Hk. left. }
  exists l'. rewrite <- Hl'. split_and!; [done|apply merge_sort_Permutation|].
  apply StronglySorted_str_lt.
  - rewrite <- Hl'. apply (StronglySorted_merge_sort cell_le).
  - apply (NoDup_fmap_1 Some). by rewrite <- Hl', merge_sort_Permutation.
Qed.

Lemma py_sorted_TypeError (l : list (option string)) (a : string) :
  NoDup l → None ∈ l → Some a ∈ l → py_sorted l = TypeError.
Proof.
  intros Hnd Hn Ha. unfold py_sorted. rewrite decide_True; [done|].
  split; [done|].
  destruct l as [|x [|y l]]; simpl; [by apply elem_of_nil in Hn| |lia].
  apply list_elem_of_singleton in Hn, Ha. congruence.
Qed.

(** X14: the airport list of the sidebar.  When no origin or destination
    cell is null the list is built; it is in strictly ascending order, so
    without repetition, and holds exactly the codes that occur as an origin or
    as a destination in the table. *)
Theorem airports_sorted_codes (df : list Normalized) :
  (∀ r : Normalized, r ∈ df → is_Some (Origin r) ∧ is_Some (Dest r)) →
  ∃ l, airports df = Ok (Some <$> l) ∧
       StronglySorted str_lt l ∧
       ∀ a, a ∈ l ↔ ∃ r : Normalized, r ∈ df ∧ (Origin r = Some a ∨ Dest r = Some a).
Proof.
  intros Hdf. unfold airports.
  destruct (py_sorted_strings
              (remove_dups (col (λ r : Normalized, Origin r) df
                            ++ col (λ r : Normalized, Dest r) df)))
    as (l & Hl & Hperm & Hsorted).
  - apply NoDup_remove_dups.
  - rewrite elem_of_remove_dups, elem_of_app. unfold col.
    intros [(r & Hr & Hin)%list_elem_of_fmap|(r & Hr & Hin)%list_elem_of_fmap];
      destruct (Hdf r Hin) as [[? Ho] [? Hd]]; congruence.
  - exists l. split_and!; [done|done|]. intros a.
    rewrite <- (list_elem_of_fmap_inj Some), Hperm, elem_of_remove_dups, elem_of_app.
    unfold col. rewrite !list_elem_of_fmap. split.
    + intros [(r & ? & ?)|(r & ? & ?)]; exists r; auto.
    + intros (r & ? & [?|?]); [left|right]; by exists r.
Qed.

Lemma airports_sorted_codes_witness :
  ∃ l, airports sample = Ok (Some <$> l) ∧ StronglySorted str_lt l ∧
       l = ["BOS"; "JFK"; "LAX"].
Proof.
  destruct (airports_sorted_codes sample) as (l & Hl & Hs & _).
  - intros r Hr. apply elem_of_load_data in Hr as (r0 & -> & Hr0).
    unfold sample_raw in Hr0.
    repeat (apply elem_of_cons in Hr0; destruct Hr0 as [->|Hr0]);
      try (split; by eexists).
    by apply elem_of_nil in Hr0.
  - exists l. split_and!; [done|done|].
    assert (Ok (Some <$> l) = Ok (Some <$> ["BOS"; "JFK"; "LAX"])) as Heq
      by (rewrite <- Hl; reflexivity).
    injection Heq as Heq.
    destruct l as [|a [|b [|c [|d l]]]]; try discriminate Heq.
    injection Heq as -> -> ->. reflexivity.
Defined.

(** X15: a null origin or destination cell breaks the airport list: as soon
    as the table also holds some airport code, [sorted] meets [None] and a
    string and the list cannot be built. *)
Theorem airports_null_TypeError (df : list Normalized) (r1 r2 : Normalized) :
  r1 ∈ df → Origin r1 = None ∨ Dest r1 = None →
  r2 ∈ df → is_Some (Origin r2) ∨ is_Some (Dest r2) →
  airports df = TypeError.
Proof.
  intros H1 Hnull H2 Hcode. unfold airports.
  assert (∃ a, Origin r2 = Some a ∨ Dest r2 = Some a) as [a Ha].
  { destruct Hcode as [[a ?]|[a ?]]; exists a; auto. }
  apply (py_sorted_TypeError _ a).
  - apply NoDup_remove_dups.
  - rewrite elem_of_remove_dups, elem_of_app. unfold col.
    rewrite !list_elem_of_fmap. destruct Hnull; [left|right]; by exists r1.
  - rewrite elem_of_remove_dups, elem_of_app. unfold col.
    rewrite !list_elem_of_fmap. destruct Ha; [left|right]; by exists r2.
Qed.

Lemma airports_null_TypeError_witness :
  airports (load_data no_origin_raw) = TypeError.
Proof.
  apply (airports_null_TypeError _
           (normalize_row flight_no_origin) (normalize_row flight_a)).
  - in_table.
  - left. reflexivity.
  - in_table.
  - left. by eexists.
Defined.

(** X16: the airline list of the sidebar.  When no airline cell is null the
    list is built, is strictly ascending, and holds exactly the airline codes
    of the table. *)
Theorem airlines_sorted_codes (df : list Normalized) :
  (∀ r : Normalized, r ∈ df → is_Some (Operating_Airline r)) →
  ∃ l, airlines df = Ok (Some <$> l) ∧
       StronglySorted str_lt l ∧
       ∀ a, a ∈ l ↔ ∃ r : Normalized, r ∈ df ∧ Operating_Airline r = Some a.
Proof.
  intros Hdf. unfold airlines.
  destruct (py_sorted_strings
              (remove_dups (col (λ r : Normalized, Operating_Airline r) df)))
    as (l & Hl & Hperm & Hsorted).
  - apply NoDup_remove_dups.
  - rewrite elem_of_remove_dups. unfold col.
    intros (r & Hr & Hin)%list_elem_of_fmap.
    destruct (Hdf r Hin) as [? Ho]. congruence.
  - exists l. split_and!; [done|done|]. intros a.
    rewrite <- (list_elem_of_fmap_inj Some), Hperm, elem_of_remove_dups.
    unfold col. rewrite list_elem_of_fmap. split.
    + intros (r & ? & ?). by exists r.
    + intros (r & ? & ?). by exists r.
Qed.

Lemma airlines_sorted_codes_witness :
  ∃ l, airlines sample = Ok (Some <$> l) ∧ StronglySorted str_lt l ∧
       ∀ a, a ∈ l ↔ ∃ r : Normalized, r ∈ sample ∧ Operating_Airline r = Some a.
Proof.
  apply airlines_sorted_codes.
  intros r Hr. apply elem_of_load_data in Hr as (r0 & -> & Hr0).
  unfold sample_raw in Hr0.
  repeat (apply elem_of_cons in Hr0; destruct Hr0 as [->|Hr0]); try (by eexists).
  by apply elem_of_nil in Hr0.
Defined.

(** X17: where a select box starts.  On a non-empty option list the start
    position is a valid position; it is the first position holding the
    preferred name when the list holds it, and position 0 otherwise. *)
Theorem default_index_valid (options : list (option string)) (name : string) :
  options ≠ [] →
  (default_index options name < length options)%nat ∧
  (Some name ∈ options →
   options !! default_index options name = Some (Some name) ∧
   ∀ j, (j < default_index options name)%nat → options !! j ≠ Some (Some name)) ∧
  (Some name ∉ options → default_index options name = 0%nat).
Proof.
  intros Hne. unfold default_index.
  destruct (list_find (λ o, o = Some name) options) as [[i o]|] eqn:Hf.
  - apply list_find_Some in Hf as (Hi & -> & Hfirst).
    split_and!.
    + by apply lookup_lt_Some in Hi.
    + intros _. split; [done|]. intros j Hj Hjo. by apply (Hfirst j _ Hjo).
    + intros Hnot. destruct Hnot. by apply list_elem_of_lookup_2 in Hi.
  - apply list_find_None in Hf. rewrite Forall_forall in Hf.
    split_and!.
    + destruct options; [done|simpl; lia].
    + intros Hin. by destruct (Hf _ Hin).
    + done.
Qed.

Lemma default_index_valid_witness :
  [Some "BOS"; Some "JFK"; Some "LAX"]
    !! default_index [Some "BOS"; Some "JFK"; Some "LAX"] "JFK"
  = Some (Some "JFK").
Proof.
  destruct (default_index_valid [Some "BOS"; Some "JFK"; Some "LAX"] "JFK")
    as (_ & H & _); [done|].
  apply H. apply list_elem_of_further, list_elem_of_here.
Defined.

(** ** Flight identifiers and the "flight" view *)

Lemma str_concat_fmap {R : Type} (f g : R → option string) (df : list R) :
  str_concat (f <$> df) (g <$> df)
  = (λ r, match f r, g r with
          | Some x, Some y => Some (String.append x y)
          | _, _ => None
          end) <$> df.
Proof. induction df as [|r df IH]; csimpl; [done|]. by f_equal. Qed.

Lemma str_take_app (a p : string) : str_take (String.length a) (String.append a p) = a.
Proof. induction a as [|c a IH]; simpl; [by destruct p|]. by rewrite IH. Qed.

Lemma str_drop_app (a p : string) : str_drop (String.length a) (String.append a p) = p.
Proof. induction a as [|c a IH]; simpl; [by destruct p|]. done. Qed.

(** The identifier column of a table whose rows all have an airline and a
    flight number. *)
Lemma flight_ids_column (df : list Normalized) :
  (∀ r : Normalized, r ∈ df →
     is_Some (Operating_Airline r) ∧ is_Some (Flight_Number_Operating_Airline r)) →
  ∃ l, flight_ids df = Ok (Some <$> l) ∧
       StronglySorted str_lt l ∧
       ∀ id, id ∈ l ↔
         ∃ (r : Normalized) a n, r ∈ df ∧ Operating_Airline r = Some a ∧
           Flight_Number_Operating_Airline r = Some n ∧
           id = String.append a (pretty n).
Proof.
  intros Hdf. unfold flight_ids, cast_Utf8, col.
  rewrite <- list_fmap_compose, str_concat_fmap.
  match goal with |- context [remove_dups ?c] => set (ids := c) end.
  destruct (py_sorted_strings (remove_dups ids)) as (l & Hl & Hperm & Hsorted).
  - apply NoDup_remove_dups.
  - rewrite elem_of_remove_dups. unfold ids.
    intros (r & Hr & Hin)%list_elem_of_fmap. simpl in Hr.
    destruct (Hdf r Hin) as [[a Ha] [n Hn]]. by rewrite Ha, Hn in Hr.
  - exists l. split_and!; [done|done|]. intros id.
    rewrite <- (list_elem_of_fmap_inj Some), Hperm, elem_of_remove_dups.
    unfold ids. rewrite list_elem_of_fmap. simpl. split.
    + intros (r & Hr & Hin).
      destruct (Hdf r Hin) as [[a Ha] [n Hn]]. rewrite Ha, Hn in Hr. simpl in Hr.
      injection Hr as ->. by exists r, a, n.
    + intros (r & a & n & Hin & Ha & Hn & ->). exists r. by rewrite Ha, Hn.
Qed.

(** X18: the flight box and the "flight" view fit together when airline
    codes have two characters.  If every row has a flight number and a
    two-character airline code, the list of identifiers is built and strictly
    ascending, every identifier it offers selects at least one row in
    "flight" mode, and every row of the table is selected by one of them. *)
Theorem flight_ids_select (df : list Normalized) :
  (∀ r : Normalized, r ∈ df →
     (∃ a, Operating_Airline r = Some a ∧ String.length a = 2%nat) ∧
     is_Some (Flight_Number_Operating_Airline r)) →
  ∃ l, flight_ids df = Ok (Some <$> l) ∧
       StronglySorted str_lt l ∧
       (∀ sel, mode sel = "flight" → flight sel ∈ l → filter_df sel df ≠ []) ∧
       (∀ r : Normalized, r ∈ df →
          ∃ id, id ∈ l ∧
            ∀ sel, mode sel = "flight" → flight sel = id → r ∈ filter_df sel df).
Proof.
  intros Hdf.
  destruct (flight_ids_column df) as (l & Hl & Hsorted & Hmem).
  { intros r Hr. destruct (Hdf r Hr) as [(a & Ha & _) Hn]. split; [by eexists|done]. }
  assert (∀ (r : Normalized) a n sel, r ∈ df → Operating_Airline r = Some a →
            Flight_Number_Operating_Airline r = Some n →
            mode sel = "flight" → flight sel = String.append a (pretty n) →
            r ∈ filter_df sel df) as Hsel.
  { intros r a n sel Hr Ha Hn Hm Hf. rewrite filter_df_selects.
    apply list_elem_of_filter. split; [|done].
    destruct (Hdf r Hr) as [(a' & Ha' & Hlen) _].
    assert (a' = a) as -> by congruence.
    unfold selects. rewrite Hm, Hf.
    repeat (case_decide; [discriminate|]). case_decide; [|done].
    rewrite <- Hlen, str_take_app, str_drop_app, Ha, Hn. done. }
  exists l. split_and!; [done|done| |].
  - intros sel Hm (r & a & n & Hr & Ha & Hn & Hid)%Hmem Hnil.
    specialize (Hsel r a n sel Hr Ha Hn Hm Hid). rewrite Hnil in Hsel.
    by apply elem_of_nil in Hsel.
  - intros r Hr. destruct (Hdf r Hr) as [(a & Ha & _) [n Hn]].
    exists (String.append a (pretty n)). split.
    + apply Hmem. by exists r, a, n.
    + intros sel Hm Hf. by apply (Hsel r a n).
Qed.

Lemma flight_ids_select_witness :
  ∃ l, flight_ids same_hour = Ok (Some <$> l) ∧
       l = ["AA101"; "AA102"; "AA103"; "AA104"] ∧
       filter_df (flight_view "AA103") same_hour ≠ [].
Proof.
  destruct (flight_ids_select same_hour) as (l & Hl & _ & Hsel & _).
  - intros r Hr. apply elem_of_load_data in Hr as (r0 & -> & Hr0).
    unfold same_hour_raw in Hr0.
    repeat (apply elem_of_cons in Hr0; destruct Hr0 as [->|Hr0]);
      try (split; [by exists "AA"|by eexists]).
    by apply elem_of_nil in Hr0.
  - assert (l = ["AA101"; "AA102"; "AA103"; "AA104"]) as Heq.
    { assert (Ok (Some <$> l) = Ok (Some <$> ["AA101"; "AA102"; "AA103"; "AA104"])) as Heq
        by (rewrite <- Hl; reflexivity).
      injection Heq as Heq.
      destruct l as [|a [|b [|c [|d [|e l]]]]]; try discriminate Heq.
      injection Heq as -> -> -> ->. reflexivity. }
    exists l. split_and!; [done|done|].
    apply Hsel; [reflexivity|]. rewrite Heq. simpl.
    do 2 apply list_elem_of_further. apply list_elem_of_here.
Defined.

(** With a three-character airline code the split after two characters goes
    wrong: the identifier the list offers selects nothing. *)
Example flight_ids_three_letter_code :
  let df := load_data [sample_row "AAL" 100 "JFK" "LAX" (Some 800) (Some 5) false] in
  flight_ids df = Ok [Some "AAL100"] ∧
  filter_df (flight_view "AAL100") df = [].
Proof. split; reflexivity. Qed.

(** * The Flightera client *)

Section ClientProperties.
Context {Json NetError : Type}.
Variable environ : gmap string string.
Variable send : Client.Request → Client.Response + NetError.
Variable json : string → option Json.

Lemma client_headers_missing :
  Client.truthy (environ !! "RAPIDAPI_KEY") = false →
  Client._headers environ = inl "Missing RAPIDAPI_KEY".
Proof.
  unfold Client._headers, Client.KEY.
  by destruct (environ !! "RAPIDAPI_KEY") as [[|c k]|].
Qed.

(** X19: without an API key, unset or empty, every call fails with
    [LiveAPIError("Missing RAPIDAPI_KEY")] and no request leaves the
    process. *)
Theorem client_missing_key (path flight iata : string)
    (params : list (string * Client.ParamValue)) (hours : option Z) :
  environ !! "RAPIDAPI_KEY" = None ∨ environ !! "RAPIDAPI_KEY" = Some "" →
  Client._get environ send json path params
  = (Client.LiveAPIError "Missing RAPIDAPI_KEY", []) ∧
  Client.flight_status_by_number environ send json flight
  = (Client.LiveAPIError "Missing RAPIDAPI_KEY", []) ∧
  Client.airport_departures environ send json iata hours
  = (Client.LiveAPIError "Missing RAPIDAPI_KEY", []).
Proof.
  intros Hkey.
  assert (Client._headers environ = inl "Missing RAPIDAPI_KEY") as Hh.
  { apply client_headers_missing. by destruct Hkey as [->| ->]. }
  unfold Client.flight_status_by_number, Client.airport_departures, Client._get.
  by rewrite Hh.
Qed.

Lemma lstrip_not_prefixed (c : Ascii.ascii) (s s' : string) :
  Client.lstrip c s ≠ String c s'.
Proof.
  induction s as [|c' s IH]; simpl; [done|].
  case_decide; [done|]. congruence.
Qed.

Lemma lstrip_cons (c : Ascii.ascii) (s : string) :
  Client.lstrip c (String c s) = Client.lstrip c s.
Proof. simpl. by rewrite decide_True. Qed.

(** X20: leading slashes of the path do not matter, and the requested URL
    never has a doubled slash after the host: a path with an extra leading
    "/" gives the same outcome and the same request, and in any request sent
    the URL is "https://HOST/" followed by a path that does not start with
    "/". *)
Theorem client_leading_slash (path : string)
    (params : list (string * Client.ParamValue)) :
  Client._get environ send json (String "/"%char path) params
  = Client._get environ send json path params ∧
  ∀ req, req ∈ (Client._get environ send json path params).2 →
    ∃ p, Client.url req
         = String.append "https://"
             (String.append (Client.HOST environ) (String.append "/" p)) ∧
         (∀ p', p ≠ String "/"%char p').
Proof.
  split.
  - unfold Client._get. by rewrite lstrip_cons.
  - intros req Hreq. exists (Client.lstrip "/"%char path).
    split; [|apply lstrip_not_prefixed].
    unfold Client._get in Hreq.
    destruct (Client._headers environ) as [msg|hs]; simpl in Hreq;
      [by apply elem_of_nil in Hreq|].
    destruct (send _) as [r|e]; [|by apply list_elem_of_singleton in Hreq as ->].
    case_decide; [by apply list_elem_of_singleton in Hreq as ->|].
    destruct (json _); by apply list_elem_of_singleton in Hreq as ->.
Qed.

Lemma str_take_length_le (k : nat) (s : string) :
  (String.length (str_take k s) ≤ k)%nat.
Proof. rewrite str_take_length. lia. Qed.

(** X21: how a call ends.  At most one request is sent.  The call returns
    decoded JSON exactly when the request it sent got a reply with status 200
    whose body decodes.  It ends in a [LiveAPIError] exactly when the key is
    missing, with nothing sent, or the request it sent got a reply with
    another status; the message is then the status, a colon and a blank, and
    the first 400 characters of the body, never more. *)
Theorem client_outcomes (path : string) (params : list (string * Client.ParamValue)) :
  let result := Client._get environ send json path params in
  (length result.2 ≤ 1)%nat ∧
  (∀ j, result.1 = Client.Returned j ↔
     ∃ req r, result.2 = [req] ∧ send req = inl r ∧
              Client.status_code r = 200 ∧ json (Client.text r) = Some j) ∧
  (∀ msg, result.1 = Client.LiveAPIError msg ↔
     (Client.truthy (environ !! "RAPIDAPI_KEY") = false ∧
      msg = "Missing RAPIDAPI_KEY" ∧ result.2 = []) ∨
     (∃ req r, result.2 = [req] ∧ send req = inl r ∧
        Client.status_code r ≠ 200 ∧
        msg = String.append (pretty (Client.status_code r))
                (String.append ": " (str_take 400 (Client.text r))))) ∧
  (∀ body, (String.length (str_take 400 body) ≤ 400)%nat).
Proof.
  unfold Client._get, Client._headers, Client.KEY. cbn [fst snd length].
  destruct (environ !! "RAPIDAPI_KEY") as [[|c k]|] eqn:Hkey; cbn [fst snd length].
  - split_and!; [lia| | |apply str_take_length_le].
    + intros j. split; [done|]. by intros (req & r & Hreq & _).
    + intros msg. split.
      * intros [= <-]. by left.
      * intros [(_ & -> & _)|(req & r & Hreq & _)]; done.
  - match goal with |- context [send ?q] => set (req := q) end.
    destruct (send req) as [r|e] eqn:Hsend; cbn [fst snd length].
    + case_decide as Hst; cbn [fst snd length].
      * split_and!; [lia| | |apply str_take_length_le].
        -- intros j. split; [done|].
           intros (req' & r' & [= <-] & Hs & H200 & _).
           rewrite Hsend in Hs. injection Hs as <-. done.
        -- intros msg. split.
           ++ intros [= <-]. right. by exists req, r.
           ++ intros [(Hk & _)|(req' & r' & [= <-] & Hs & _ & ->)]; [done|].
              rewrite Hsend in Hs. by injection Hs as <-.
      * assert (Client.status_code r = 200) as H200
          by (by destruct (decide (Client.status_code r = 200))).
        destruct (json (Client.text r)) as [j|] eqn:Hj; cbn [fst snd length].
        -- split_and!; [lia| | |apply str_take_length_le].
           ++ intros j'. split.
              ** intros [= <-]. by exists req, r.
              ** intros (req' & r' & [= <-] & Hs & _ & Hj').
                 rewrite Hsend in Hs. injection Hs as <-. congruence.
           ++ intros msg. split; [done|].
              intros [(Hk & _)|(req' & r' & [= <-] & Hs & Hne & _)]; [done|].
              rewrite Hsend in Hs. injection Hs as <-. done.
        -- split_and!; [lia| | |apply str_take_length_le].
           ++ intros j'. split; [done|].
              intros (req' & r' & [= <-] & Hs & _ & Hj').
              rewrite Hsend in Hs. injection Hs as <-. congruence.
           ++ intros msg. split; [done|].
              intros [(Hk & _)|(req' & r' & [= <-] & Hs & Hne & _)]; [done|].
              rewrite Hsend in Hs. injection Hs as <-. done.
    + split_and!; [lia| | |apply str_take_length_le].
      * intros j. split; [done|].
        intros (req' & r' & [= <-] & Hs & _). rewrite Hsend in Hs. done.
      * intros msg. split; [done|].
        intros [(Hk & _)|(req' & r' & [= <-] & Hs & _)]; [done|].
        rewrite Hsend in Hs. done.
  - split_and!; [lia| | |apply str_take_length_le].
    + intros j. split; [done|]. by intros (req & r & Hreq & _).
    + intros msg. split.
      * intros [= <-]. by left.
      * intros [(_ & -> & _)|(req & r & Hreq & _)]; done.
Qed.

End ClientProperties.

Lemma client_missing_key_witness :
  Client.flight_status_by_number (Json:=unit) (NetError:=unit)
    ∅ (λ _, inr ()) (λ _, None) "AA100"
  = (Client.LiveAPIError "Missing RAPIDAPI_KEY", []).
Proof.
  destruct (client_missing_key (Json:=unit) (NetError:=unit)
              ∅ (λ _, inr ()) (λ _, None) "flights/status" "AA100" "JFK" [] None)
    as (_ & H & _).
  - left. reflexivity.
  - exact H.
Defined.

(** A run with a key: one request to the default host, and a 404 reply
    turned into the error message. *)
Example client_not_found :
  Client._get (Json:=unit) (NetError:=unit)
    {[ "RAPIDAPI_KEY" := "k" ]}
    (λ _, inl {| Client.status_code := 404; Client.text := "Not Found" |})
    (λ _, None) "/flights/status" [("flight", Client.PStr "AA100")]
  = (Client.LiveAPIError "404: Not Found",
     [ {| Client.url := "https://flightera-flight-data.p.rapidapi.com/flights/status";
          Client.headers := [("x-rapidapi-host", "flightera-flight-data.p.rapidapi.com");
                             ("x-rapidapi-key", "k")];
          Client.params := [("flight", Client.PStr "AA100")];
          Client.timeout := 20 |} ]).
Proof. vm_compute. reflexivity. Qed.

(** * compute_metrics: the rates are percentages *)

Lemma Z2Qc_percent_bounds (a b : Z) :
  0 ≤ a ≤ b → 0 < b → (0 ≤ Z2Qc a / Z2Qc b * Z2Qc 100 ≤ Z2Qc 100)%Qc.
Proof.
  intros Hab Hb. destruct (Z2Qc_frac_bounds a b Hab Hb) as [H0 H1].
  assert (0 ≤ Z2Qc 100)%Qc as H100 by done.
  split.
  - rewrite <- (Qcmult_0_l (Z2Qc 100)). by apply Qcmult_le_mono_nonneg_r.
  - rewrite <- (Qcmult_1_l (Z2Qc 100)) at 2. by apply Qcmult_le_mono_nonneg_r.
Qed.

(** X22: both rates of a non-empty selection of the loaded data are the
    rounding of a value between 0 and 100. *)
Theorem kpi_rates_percent (py_round1 : Qc → Qc)
    (sel : Selection) (df : list FlightRecord) :
  let fdf := filter_df sel (load_data df) in
  fdf ≠ [] →
  ∃ x y : Qc,
    Metrics.on_time_pct (compute_metrics py_round1 fdf) = Some (py_round1 x) ∧
    Metrics.cancel_rate (compute_metrics py_round1 fdf) = Some (py_round1 y) ∧
    (0 ≤ x ≤ Z2Qc 100)%Qc ∧ (0 ≤ y ≤ Z2Qc 100)%Qc.
Proof.
  intros fdf Hne. unfold compute_metrics.
  case_decide as Hn; [by destruct fdf|]. simpl.
  assert (∀ r : Normalized, r ∈ fdf → r = normalize_row r) as Hrows.
  { intros r. apply filter_df_load_data_normal. }
  rewrite (on_time_sum_count fdf Hrows), (cancelled_sum_count fdf Hrows).
  eexists _, _. split; [reflexivity|]. split; [reflexivity|]. split.
  - apply Z2Qc_percent_bounds; [|lia].
    split; [lia|]. apply Nat2Z.inj_le, length_filter.
  - apply Z2Qc_percent_bounds; [|lia].
    split; [lia|]. apply Nat2Z.inj_le, length_filter.
Qed.

Lemma kpi_rates_percent_witness :
  ∃ x y : Qc,
    Metrics.on_time_pct (compute_metrics round1_half_even
                           (filter_df JFK_to_LAX (load_data same_hour_raw)))
    = Some (round1_half_even x) ∧
    Metrics.cancel_rate (compute_metrics round1_half_even
                           (filter_df JFK_to_LAX (load_data same_hour_raw)))
    = Some (round1_half_even y) ∧
    (0 ≤ x ≤ Z2Qc 100)%Qc ∧ (0 ≤ y ≤ Z2Qc 100)%Qc.
Proof.
  apply (kpi_rates_percent round1_half_even JFK_to_LAX same_hour_raw). done.
Defined.
